(** * FORS API: the role/permission authorization core

    A shallow embedding of the Express handlers of the FORS API
    (middleware/authMiddleware.js, routes/farmerRoutes.js,
    routes/authRoutes.js, routes/roleRoutes.js) over an in-memory model of the
    relational schema of README.md.

    - Tables with a primary key are finite maps from the key to the row; the
      two join tables, whose primary key is the whole row, are finite sets.
    - A handler is a computation over the store, the Express response object and
      a log of outward effects, which either returns or throws. An early
      [return res.status(..).json(..)] is the branch that does nothing more.
    - The store is reachable: a query fails only where [.single()] does not see
      exactly one row, where a constraint of the schema rejects a write, or
      where a value of a farmer does not fit the type of its column.
    - The token codec (jsonwebtoken) and the password hash (bcryptjs) are
      libraries outside the repository and are parameters of the handlers.
    - A field of a request body is [None] when it is [undefined], and
      otherwise holds a value of the JSON type its column is written in: a
      text (the list of its characters), an integer, a calendar date (the
      text YYYY-MM-DD) or a decimal number (the digits a number of JavaScript
      is written with). The store reads the values of a farmer into the
      types of the columns of [farmers], and refuses the statement when one
      does not fit; role names and the keys in a route are values of their
      columns.
    - A response body carries the rows it is built from, without the embedded
      relations;
      the [date_added] and [created_at] columns, which the store fills from
      its clock, are left out of the rows. *)

From Stdlib Require Import Ascii.
From stdpp Require Import base option list gmap sets strings pretty.

Local Open Scope Z_scope.

(** ** The schema (README.md, "Create Database Tables") *)

Record PermissionRow := {
  permission_name : string;
  permission_code : string
}.

Record UserRow := {
  user_full_name : string;
  email : string;
  role_id : Z;
  password_hash : string;
  activation_status : bool;
  otp : option string;
  is_active : bool
}.

Record ProjectRow := {
  project_name : string;
  description : option string;
  project_status : option bool
}.

(** A calendar date as its text YYYY-MM-DD names it. *)
Module Date.
Record t := { year : N; month : N; day : N }.
End Date.

(** A decimal number: [digits / 10 ^ scale]. *)
Module Numeric.
Record t := { digits : Z; scale : nat }.
End Numeric.

Record FarmerRow := {
  full_name : string;
  mobile_number : option string;
  date_of_birth : option Date.t;
  age : option Z;
  gender : option string;
  farmer_type_id : option Z;
  country_name : option string;
  state_name : option string;
  district_name : option string;
  village_tract_name : option string;
  village_name : option string;
  project_id : option Z;
  added_by_user_id : option string;
  latitude : option Numeric.t;
  longitude : option Numeric.t
}.

Record DB := {
  roles : gmap Z string;                  (* id ↦ role_name *)
  permissions : gmap Z PermissionRow;
  role_permissions : gset (Z * Z);        (* (role_id, permission_id) *)
  users : gmap string UserRow;            (* UUID ↦ row *)
  projects : gmap Z ProjectRow;
  project_users : gset (Z * string);      (* (project_id, user_id) *)
  farmer_types : gmap Z string;
  farmers : gmap string FarmerRow
}.

Definition with_users (f : gmap string UserRow → gmap string UserRow) (d : DB) : DB :=
  {| roles := roles d; permissions := permissions d;
     role_permissions := role_permissions d; users := f (users d);
     projects := projects d; project_users := project_users d;
     farmer_types := farmer_types d; farmers := farmers d |}.

Definition with_roles (f : gmap Z string → gmap Z string) (d : DB) : DB :=
  {| roles := f (roles d); permissions := permissions d;
     role_permissions := role_permissions d; users := users d;
     projects := projects d; project_users := project_users d;
     farmer_types := farmer_types d; farmers := farmers d |}.

Definition with_role_permissions (f : gset (Z * Z) → gset (Z * Z)) (d : DB) : DB :=
  {| roles := roles d; permissions := permissions d;
     role_permissions := f (role_permissions d); users := users d;
     projects := projects d; project_users := project_users d;
     farmer_types := farmer_types d; farmers := farmers d |}.

Definition with_farmers (f : gmap string FarmerRow → gmap string FarmerRow) (d : DB) : DB :=
  {| roles := roles d; permissions := permissions d;
     role_permissions := role_permissions d; users := users d;
     projects := projects d; project_users := project_users d;
     farmer_types := farmer_types d; farmers := f (farmers d) |}.

(** ** Replies of the store client

    Every query of the client resolves to an object [{ data, error }]. *)

Record JsError := { message : string }.

Record Reply (A : Type) := { data : option A; error : option JsError }.
Arguments data {A} _.
Arguments error {A} _.

Definition ok {A} (a : A) : Reply A := {| data := Some a; error := None |}.
Definition failed {A} (msg : string) : Reply A :=
  {| data := None; error := Some {| message := msg |} |}.

(** [.single()]: exactly one row, or an error and no data. *)
Definition single {A} (rows : list A) : Reply A :=
  match rows with
  | [x] => ok x
  | _ => failed "JSON object requested, multiple (or no) rows returned"
  end.

(** ** The column types of the schema

    The store reads each value of an insert or an update into the type of its
    column; a value that does not fit makes the statement fail, and nothing
    is written. *)

Definition Cast (A : Type) : Type := JsError + A.

#[global] Instance Cast_ret : MRet Cast := λ _ x, inr x.
#[global] Instance Cast_bind : MBind Cast :=
  λ _ _ f m, match m with inl e => inl e | inr x => f x end.

Definition refused {A} (msg : string) : Cast A := inl {| message := msg |}.

(** A column that is handed no value, or [null], holds [null]. *)
Definition cast {A} (column : A → Cast A) (v : option A) : Cast (option A) :=
  match v with
  | None => mret None
  | Some x => y ← column x; mret (Some y)
  end.

Definition quoted (s : string) : string :=
  String "034" (s +:+ String "034" EmptyString).

(** VARCHAR(n): a text of more than [n] characters is refused, unless what
    exceeds [n] is spaces only, which are cut off; the character of code 0 is
    part of no text. *)
Definition varchar (n : nat) (s : string) : Cast string :=
  let cs := String.list_ascii_of_string s in
  if existsb (Ascii.eqb "000") cs then refused "unsupported Unicode escape sequence"
  else if (length cs <=? n)%nat then mret s
  else if forallb (Ascii.eqb " ") (drop n cs) then
    mret (String.string_of_list_ascii (take n cs))
  else refused ("value too long for type character varying(" +:+ pretty n +:+ ")").

(** INT: 32 bits, signed. *)
Definition int4 (v : Z) : Cast Z :=
  if (-2147483648 <=? v) && (v <=? 2147483647) then mret v
  else refused ("value " +:+ quoted (pretty v) +:+ " is out of range for type integer").

Definition leap_year (y : N) : bool :=
  ((y mod 4 =? 0) && negb (y mod 100 =? 0) || (y mod 400 =? 0))%N.

Definition days_in_month (y m : N) : N :=
  (if m =? 2 then (if leap_year y then 29 else 28)
   else if (m =? 4) || (m =? 6) || (m =? 9) || (m =? 11) then 30
   else 31)%N.

Definition padded (width : nat) (n : N) : string :=
  let s := pretty n in
  String.string_of_list_ascii (replicate (width - String.length s) "0"%char) +:+ s.

Definition iso (v : Date.t) : string :=
  padded 4 (Date.year v) +:+ "-" +:+ padded 2 (Date.month v) +:+ "-" +:+ padded 2 (Date.day v).

(** DATE: a day of the calendar, from the year 1 to the year 5874897. *)
Definition date (v : Date.t) : Cast Date.t :=
  if ((1 <=? Date.year v) && (Date.year v <=? 5874897)
      && (1 <=? Date.month v) && (Date.month v <=? 12)
      && (1 <=? Date.day v) && (Date.day v <=? days_in_month (Date.year v) (Date.month v)))%N
  then mret v
  else refused ("date/time field value out of range: " +:+ quoted (iso v)).

(** The number in units of [10 ^ -8], rounded half away from zero. *)
Definition round8 (v : Numeric.t) : Z :=
  if (Numeric.scale v <=? 8)%nat then
    Numeric.digits v * 10 ^ Z.of_nat (8 - Numeric.scale v)
  else
    let unit := 10 ^ Z.of_nat (Numeric.scale v - 8) in
    Z.sgn (Numeric.digits v) * ((Z.abs (Numeric.digits v) + unit / 2) / unit).

(** DECIMAL(precision, 8): the number is rounded to eight decimal places,
    and refused when it then takes more than [precision] digits. *)
Definition decimal (precision : nat) (v : Numeric.t) : Cast Numeric.t :=
  let r := round8 v in
  if Z.abs r <? 10 ^ Z.of_nat precision then
    mret {| Numeric.digits := r; Numeric.scale := 8 |}
  else refused "numeric field overflow".

(** ** Values of JavaScript as the handlers test them *)

Definition truthy_string (s : option string) : bool :=
  match s with Some s => negb (String.eqb s "") | None => false end.

Definition truthy_number (n : option Z) : bool :=
  match n with Some n => negb (n =? 0) | None => false end.

(** [hay.includes(needle)] *)
Fixpoint includes (needle hay : string) : bool :=
  String.prefix needle hay ||
  match hay with
  | EmptyString => false
  | String _ rest => includes needle rest
  end.

(** [s.split(' ')] *)
Fixpoint split_space (s : string) : list string :=
  match s with
  | EmptyString => [EmptyString]
  | String c rest =>
      if Ascii.eqb c " "%char then EmptyString :: split_space rest
      else match split_space rest with
           | [] => [String c EmptyString]
           | w :: ws => String c w :: ws
           end
  end.

(** ** The handler monad: store, response object, effect log, exceptions *)

Record Claims := { userId : string; claim_email : string; roleName : string }.

Inductive Body :=
  | Message (msg : string)
  | ServerError (msg err : string)
  | FarmerList (rows : list (string * FarmerRow))
  | FarmerOne (farmer : string * FarmerRow)
  | FarmerResult (msg : string) (farmer : string * FarmerRow)
  | RoleResult (msg : string) (role : Z * string)
  | TokenResult (msg token : string) (user : Claims) (fullName : string).

Record Response := { status : Z; json : Body }.

Inductive Event :=
  | Mail (to code : string)      (* transporter.sendMail *)
  | Stored (user_id : string) (pending : option string)
                                 (* update({ otp }) on the row of the user *)
  | Signed (payload : Claims).   (* jwt.sign *)

Record World := { db : DB; res : option Response; log : list Event }.

Inductive Outcome (A : Type) :=
  | Ret (a : A)
  | Throw (e : JsError).
Arguments Ret {A} _.
Arguments Throw {A} _.

Definition M (A : Type) : Type := World → Outcome A * World.

Global Instance M_ret : MRet M := λ A a w, (Ret a, w).
Global Instance M_bind : MBind M := λ A B k m w,
  match m w with
  | (Ret a, w') => k a w'
  | (Throw e, w') => (Throw e, w')
  end.

Definition throw {A} (e : JsError) : M A := λ w, (Throw e, w).

Definition try_catch {A} (m : M A) (handler : JsError → M A) : M A := λ w,
  match m w with
  | (Ret a, w') => (Ret a, w')
  | (Throw e, w') => handler e w'
  end.

Definition get_db : M DB := λ w, (Ret (db w), w).

Definition put_db (d : DB) : M unit := λ w,
  (Ret (), {| db := d; res := res w; log := log w |}).

Definition emit (ev : Event) : M unit := λ w,
  (Ret (), {| db := db w; res := res w; log := log w ++ [ev] |}).

(** ERR_HTTP_HEADERS_SENT *)
Definition headers_sent : JsError :=
  {| message := "Cannot set headers after they are sent to the client" |}.

(** [res.status(code).json(body)]: the first call answers the request; a
    call on an answered request throws. *)
Definition send (code : Z) (body : Body) : M unit := λ w,
  match res w with
  | None => (Ret (), {| db := db w; res := Some {| status := code; json := body |};
                        log := log w |})
  | Some _ => (Throw headers_sent, w)
  end.

(** A request as a handler sees it: the authorization header, the payload
    the gate attached, the route parameters and the parsed body. *)
Record Request (P B : Type) := {
  authorization : option string;
  user : option Claims;
  params : P;
  body : B
}.
Arguments authorization {P B} _.
Arguments user {P B} _.
Arguments params {P B} _.
Arguments body {P B} _.

Definition attach {P B} (c : Claims) (req : Request P B) : Request P B :=
  {| authorization := authorization req; user := Some c;
     params := params req; body := body req |}.

(** The [TypeError] of reading [field] on [null] or [undefined]. *)
Definition cannot_read (what field : string) : JsError :=
  {| message := "Cannot read properties of " +:+ what +:+ " (reading '" +:+ field +:+ "')" |}.

(** Reading [req.user.<field>] on a request without a payload throws. *)
Definition req_user {P B} (field : string) (req : Request P B) : M Claims :=
  match user req with
  | Some c => mret c
  | None => throw (cannot_read "undefined" field)
  end.

(** The world a request starts in. *)
Definition start (d : DB) : World := {| db := d; res := None; log := [] |}.

Definition answered (code : Z) (b : Body) (w : World) : World :=
  {| db := db w; res := Some {| status := code; json := b |}; log := log w |}.

(** ** Libraries outside the repository *)

(** jsonwebtoken, with the secret and the clock of the request fixed:
    [jwt_verify] yields the payload, or nothing when the library reports an
    error (bad signature, malformed token, expired token). *)
Class Jwt := {
  jwt_sign : Claims → string;
  jwt_verify : string → option Claims
}.

(** bcryptjs: [bcrypt_compare password hash]. *)
Class Bcrypt := { bcrypt_compare : string → string → bool }.

(** ** middleware/authMiddleware.js *)

(** [from('users').select('is_active, activation_status').eq('id', id).single()] *)
Definition select_user_status (d : DB) (id : string) : Reply (bool * bool) :=
  single (option_list ((λ u, (is_active u, activation_status u)) <$> users d !! id)).

(** [authHeader && authHeader.split(' ')[1]] *)
Definition bearer (authHeader : option string) : option string :=
  h ← authHeader; split_space h !! 1%nat.

Definition authenticateToken `{Jwt} {P B}
    (req : Request P B) (next : Request P B → M unit) : M unit :=
  let token := bearer (authorization req) in
  if negb (truthy_string token) then
    send 401 (Message "Authentication token required.")
  else
    match jwt_verify (default EmptyString token) with
    | None => send 403 (Message "Invalid or expired token.")
    | Some payload =>
        let req := attach payload req in
        d ← get_db;
        let r := select_user_status d (userId payload) in
        match error r, data r with
        | None, Some (is_active, activation_status) =>
            if negb is_active || negb activation_status then
              send 403 (Message "User is inactive or not found.")
            else next req
        | _, _ => send 403 (Message "User is inactive or not found.")
        end
    end.

(** The role of a user as the nested selects embed it:
    [role:roles(role_name, role_permissions(permission:permissions(permission_code)))].
    A link whose permission row is missing embeds [null]. *)
Record RoleEmbed := {
  role_name : string;
  embedded_permissions : list (option PermissionRow)
}.

Definition embed_role (d : DB) (rid : Z) : option RoleEmbed :=
  name ← roles d !! rid;
  Some {| role_name := name;
          embedded_permissions :=
            (λ rp : Z * Z, permissions d !! rp.2)
              <$> elements (filter (λ rp : Z * Z, rp.1 = rid) (role_permissions d)) |}.

(** [from('users').select('id, role:roles(...)').eq('id', id).single()] *)
Definition select_user_role (d : DB) (id : string) : Reply (option RoleEmbed) :=
  single (option_list ((λ u, embed_role d (role_id u)) <$> users d !! id)).

Definition authorizeRole {P B} (requiredRoleName : string)
    (req : Request P B) (next : M unit) : M unit :=
  u ← req_user "userId" req;
  d ← get_db;
  let r := select_user_role d (userId u) in
  match error r, data r with
  | None, Some (Some role) =>
      if negb (String.eqb (role_name role) requiredRoleName) then
        send 403 (Message ("Access denied. Requires " +:+ requiredRoleName +:+ " role."))
      else next
  | _, _ => send 403 (Message "User role not found or access denied.")
  end.

(** [rp => rp.permission && rp.permission.permission_code === permissionCode] *)
Definition has_code (permissionCode : string) (rp : option PermissionRow) : bool :=
  match rp with
  | Some permission => String.eqb (permission_code permission) permissionCode
  | None => false
  end.

Definition authorizePermission {P B} (permissionCode : string)
    (req : Request P B) (next : M unit) : M unit :=
  u ← req_user "userId" req;
  d ← get_db;
  let r := select_user_role d (userId u) in
  match error r, data r with
  | None, Some (Some role) =>
      let hasPermission :=
        existsb (has_code permissionCode) (embedded_permissions role) in
      if negb hasPermission then
        send 403 (Message ("Access denied. Requires permission: " +:+ permissionCode))
      else next
  | _, _ => send 403 (Message "User permissions not found or access denied.")
  end.

(** ** routes/farmerRoutes.js *)

(** The fields a create or update request may carry; [None] is [undefined]. *)
Module FarmerBody.
Record t := {
  fullName : option string;
  mobileNumber : option string;
  dateOfBirth : option Date.t;
  age : option Z;
  gender : option string;
  farmerTypeId : option Z;
  countryName : option string;
  stateName : option string;
  districtName : option string;
  villageTractName : option string;
  villageName : option string;
  projectId : option Z;
  latitude : option Numeric.t;
  longitude : option Numeric.t
}.
End FarmerBody.

(** A foreign key column holds [null] or the key of a row of the table. *)
Definition references `{Countable K} {V} (m : gmap K V) (k : option K) : bool :=
  match k with
  | Some k => bool_decide (is_Some (m !! k))
  | None => true
  end.

Definition farmer_row_ok (d : DB) (row : FarmerRow) : bool :=
  references (farmer_types d) (farmer_type_id row)
  && references (projects d) (project_id row)
  && references (users d) (added_by_user_id row).

(** The row of an insert as the store reads it into the columns of
    [farmers], in the order of the table: the first value that does not fit
    its column gives the error. The three references are keys of their
    tables when they resolve, and are checked as such. *)
Definition farmer_in (row : FarmerRow) : Cast FarmerRow :=
  name ← varchar 255 (full_name row);
  mobile ← cast (varchar 20) (mobile_number row);
  born ← cast date (date_of_birth row);
  years ← cast int4 (age row);
  sex ← cast (varchar 50) (gender row);
  country ← cast (varchar 255) (country_name row);
  state ← cast (varchar 255) (state_name row);
  district ← cast (varchar 255) (district_name row);
  tract ← cast (varchar 255) (village_tract_name row);
  village ← cast (varchar 255) (village_name row);
  lat ← cast (decimal 10) (latitude row);
  lon ← cast (decimal 11) (longitude row);
  mret {| full_name := name; mobile_number := mobile; date_of_birth := born;
          age := years; gender := sex; farmer_type_id := farmer_type_id row;
          country_name := country; state_name := state; district_name := district;
          village_tract_name := tract; village_name := village;
          project_id := project_id row; added_by_user_id := added_by_user_id row;
          latitude := lat; longitude := lon |}.

(** The values of an update as the store reads them: those that the request
    provides, each into the column it is written to. *)
Definition farmer_values (b : FarmerBody.t) : Cast FarmerBody.t :=
  name ← cast (varchar 255) (FarmerBody.fullName b);
  mobile ← cast (varchar 20) (FarmerBody.mobileNumber b);
  born ← cast date (FarmerBody.dateOfBirth b);
  years ← cast int4 (FarmerBody.age b);
  sex ← cast (varchar 50) (FarmerBody.gender b);
  country ← cast (varchar 255) (FarmerBody.countryName b);
  state ← cast (varchar 255) (FarmerBody.stateName b);
  district ← cast (varchar 255) (FarmerBody.districtName b);
  tract ← cast (varchar 255) (FarmerBody.villageTractName b);
  village ← cast (varchar 255) (FarmerBody.villageName b);
  lat ← cast (decimal 10) (FarmerBody.latitude b);
  lon ← cast (decimal 11) (FarmerBody.longitude b);
  mret {| FarmerBody.fullName := name; FarmerBody.mobileNumber := mobile;
          FarmerBody.dateOfBirth := born; FarmerBody.age := years;
          FarmerBody.gender := sex; FarmerBody.farmerTypeId := FarmerBody.farmerTypeId b;
          FarmerBody.countryName := country; FarmerBody.stateName := state;
          FarmerBody.districtName := district; FarmerBody.villageTractName := tract;
          FarmerBody.villageName := village; FarmerBody.projectId := FarmerBody.projectId b;
          FarmerBody.latitude := lat; FarmerBody.longitude := lon |}.

(** [from('project_users').select('project_id').eq('user_id', uid)] *)
Definition select_user_projects (d : DB) (uid : string) : list Z :=
  fst <$> elements (filter (λ pu : Z * string, pu.2 = uid) (project_users d)).

(** [from('project_users').select('project_id').eq('project_id', pid)
      .eq('user_id', uid).single()]; a [null] project matches no row. *)
Definition select_project_user (d : DB) (pid : option Z) (uid : string) : Reply Z :=
  single (match pid with
          | Some p =>
              fst <$> elements
                (filter (λ pu : Z * string, pu.1 = p ∧ pu.2 = uid) (project_users d))
          | None => []
          end).

(** The filter [.in('project_id', ids)] on one row. *)
Definition project_in (ids : list Z) (row : FarmerRow) : bool :=
  match project_id row with
  | Some p => bool_decide (p ∈ ids)
  | None => false
  end.

(** [from('farmers').select(...)], with [.in('project_id', ids)] when a list
    of projects is given. *)
Definition select_farmers (d : DB) (ids : option (list Z)) : list (string * FarmerRow) :=
  match ids with
  | None => map_to_list (farmers d)
  | Some ids =>
      map_to_list
        (filter (λ kv : string * FarmerRow, project_in ids kv.2 = true) (farmers d))
  end.

(** [from('farmers').select(...).eq('id', id).single()] *)
Definition select_farmer (d : DB) (id : string) : Reply (string * FarmerRow) :=
  single (option_list ((λ row, (id, row)) <$> farmers d !! id)).

Arguments farmer_in : simpl never.
Arguments farmer_values : simpl never.

(** [from('farmers').insert(row).select().single()]; the store draws the
    identifier [new_id] of the row, and returns the row as it is stored. *)
Definition insert_farmer (new_id : string) (row : FarmerRow) : M (Reply (string * FarmerRow)) :=
  d ← get_db;
  match farmer_in row with
  | inl e => mret (failed (message e))
  | inr stored =>
      if bool_decide (is_Some (farmers d !! new_id)) then
        mret (failed "duplicate key value violates unique constraint")
      else if negb (farmer_row_ok d stored) then
        mret (failed "insert or update on table violates foreign key constraint")
      else
        put_db (with_farmers (insert new_id stored) d);;
        mret (ok (new_id, stored))
  end.

(** [from('farmers').update(updateData).eq('id', id).select().single()]:
    [values] are the columns that the request provides and [patch] writes
    them, as the store reads them, into the row. *)
Definition update_farmer (id : string) (values : FarmerBody.t)
    (patch : FarmerBody.t → FarmerRow → FarmerRow) : M (Reply (string * FarmerRow)) :=
  d ← get_db;
  match farmer_values values with
  | inl e => mret (failed (message e))
  | inr stored =>
      match farmers d !! id with
      | None => mret (single [])
      | Some old =>
          if negb (farmer_row_ok d (patch stored old)) then
            mret (failed "insert or update on table violates foreign key constraint")
          else
            put_db (with_farmers (insert id (patch stored old)) d);;
            mret (ok (id, patch stored old))
      end
  end.

(** [from('farmers').delete().eq('id', id)]; no table refers to a farmer. *)
Definition delete_farmer (id : string) : M (option JsError) :=
  d ← get_db;
  put_db (with_farmers (delete id) d);;
  mret None.

Definition is_admin (c : Claims) : bool := String.eqb (roleName c) "Admin".

(** The [catch] block of the three writing handlers. *)
Definition farmer_catch (e : JsError) : M unit :=
  if includes "Access denied" (message e) then send 403 (Message (message e))
  else send 500 (ServerError "Server error." (message e)).

Definition server_error (e : JsError) : M unit :=
  send 500 (ServerError "Server error." (message e)).

(** GET /api/farmers *)
Definition get_farmers {P B} (req : Request P B) : M unit :=
  try_catch
    (u ← req_user "roleName" req;
     d ← get_db;
     if negb (is_admin u) then
       let projectIds := select_user_projects d (userId u) in
       if (length projectIds =? 0)%nat then send 200 (FarmerList [])
       else send 200 (FarmerList (select_farmers d (Some projectIds)))
     else send 200 (FarmerList (select_farmers d None)))
    server_error.

(** GET /api/farmers/:id *)
Definition get_farmer {B} (req : Request string B) : M unit :=
  let id := params req in
  try_catch
    (d ← get_db;
     let r := select_farmer d id in
     match error r, data r with
     | Some e, _ => throw e
     | None, None => send 404 (Message "Farmer not found.")
     | None, Some farmer =>
         u ← req_user "roleName" req;
         let proceed := send 200 (FarmerOne farmer) in
         if negb (is_admin u) then
           (* farmer.project.id: the embedded project is null without a project *)
           match project_id farmer.2 with
           | None => throw (cannot_read "null" "id")
           | Some p =>
               let pu := select_project_user d (Some p) (userId u) in
               match error pu, data pu with
               | None, Some _ => proceed
               | _, _ => send 403 (Message "Access denied to this farmer record.")
               end
           end
         else proceed
     end)
    server_error.

(** The object that the create handler hands to [insert]: the values of the
    request under the names of the columns, as they came. *)
Definition new_farmer (b : FarmerBody.t) (userId : string) : FarmerRow :=
  {| full_name := default EmptyString (FarmerBody.fullName b);
     mobile_number := FarmerBody.mobileNumber b;
     date_of_birth := FarmerBody.dateOfBirth b;
     age := FarmerBody.age b;
     gender := FarmerBody.gender b;
     farmer_type_id := FarmerBody.farmerTypeId b;
     country_name := FarmerBody.countryName b;
     state_name := FarmerBody.stateName b;
     district_name := FarmerBody.districtName b;
     village_tract_name := FarmerBody.villageTractName b;
     village_name := FarmerBody.villageName b;
     project_id := FarmerBody.projectId b;
     added_by_user_id := Some userId;
     latitude := FarmerBody.latitude b;
     longitude := FarmerBody.longitude b |}.

(** POST /api/farmers *)
Definition post_farmer {P} (new_id : string) (req : Request P FarmerBody.t) : M unit :=
  let b := body req in
  if negb (truthy_string (FarmerBody.fullName b))
     || negb (truthy_number (FarmerBody.farmerTypeId b))
     || negb (truthy_number (FarmerBody.projectId b)) then
    send 400 (Message "Full name, farmer type, and project are required.")
  else
    try_catch
      (u ← req_user "roleName" req;
       d ← get_db;
       let create : M unit :=
         r ← insert_farmer new_id (new_farmer b (userId u));
         match error r, data r with
         | Some e, _ => throw e
         | None, Some newFarmer =>
             send 201 (FarmerResult "Farmer record created successfully." newFarmer)
         | None, None => throw {| message := "Cannot read properties of null" |}
         end in
       if negb (is_admin u) then
         let pu := select_project_user d (FarmerBody.projectId b) (userId u) in
         match error pu, data pu with
         | None, Some _ =>
             authorizePermission "ADD_FARMER_RECORDS" req (mret ());;
             create
         | _, _ =>
             send 403 (Message "You can only add farmers to projects you are assigned to.")
         end
       else
         authorizePermission "CREATE_FARMER_RECORDS" req (mret ());;
         create)
      farmer_catch.

(** The keys left in [updateData] once the undefined values are deleted.
    [project_id] holds [targetProjectId], a number or [null], and stays. *)
Definition key {A} (name : string) (v : option A) : list string :=
  match v with Some _ => [name] | None => [] end.

Definition update_keys (b : FarmerBody.t) : list string :=
  key "full_name" (FarmerBody.fullName b)
  ++ key "mobile_number" (FarmerBody.mobileNumber b)
  ++ key "date_of_birth" (FarmerBody.dateOfBirth b)
  ++ key "age" (FarmerBody.age b)
  ++ key "gender" (FarmerBody.gender b)
  ++ key "farmer_type_id" (FarmerBody.farmerTypeId b)
  ++ key "country_name" (FarmerBody.countryName b)
  ++ key "state_name" (FarmerBody.stateName b)
  ++ key "district_name" (FarmerBody.districtName b)
  ++ key "village_tract_name" (FarmerBody.villageTractName b)
  ++ key "village_name" (FarmerBody.villageName b)
  ++ ["project_id"]
  ++ key "latitude" (FarmerBody.latitude b)
  ++ key "longitude" (FarmerBody.longitude b).

Definition provided {A} (new : option A) (old : option A) : option A :=
  match new with Some v => Some v | None => old end.

(** [update(updateData)] on the stored row. *)
Definition apply_update (b : FarmerBody.t) (targetProjectId : option Z)
    (old : FarmerRow) : FarmerRow :=
  {| full_name := default (full_name old) (FarmerBody.fullName b);
     mobile_number := provided (FarmerBody.mobileNumber b) (mobile_number old);
     date_of_birth := provided (FarmerBody.dateOfBirth b) (date_of_birth old);
     age := provided (FarmerBody.age b) (age old);
     gender := provided (FarmerBody.gender b) (gender old);
     farmer_type_id := provided (FarmerBody.farmerTypeId b) (farmer_type_id old);
     country_name := provided (FarmerBody.countryName b) (country_name old);
     state_name := provided (FarmerBody.stateName b) (state_name old);
     district_name := provided (FarmerBody.districtName b) (district_name old);
     village_tract_name :=
       provided (FarmerBody.villageTractName b) (village_tract_name old);
     village_name := provided (FarmerBody.villageName b) (village_name old);
     project_id := targetProjectId;
     added_by_user_id := added_by_user_id old;
     latitude := provided (FarmerBody.latitude b) (latitude old);
     longitude := provided (FarmerBody.longitude b) (longitude old) |}.

(** [projectId || currentProjectId] *)
Definition target_project (projectId currentProjectId : option Z) : option Z :=
  if truthy_number projectId then projectId else currentProjectId.

(** PUT /api/farmers/:id *)
Definition put_farmer (req : Request string FarmerBody.t) : M unit :=
  let id := params req in
  let b := body req in
  try_catch
    (d ← get_db;
     let existing := select_farmer d id in
     match error existing, data existing with
     | None, Some existingFarmer =>
         let currentProjectId := project_id existingFarmer.2 in
         let targetProjectId := target_project (FarmerBody.projectId b) currentProjectId in
         u ← req_user "roleName" req;
         let update : M unit :=
           if (length (update_keys b) =? 0)%nat then
             send 400 (Message "No fields to update provided.")
           else
             r ← update_farmer id b (λ values, apply_update values targetProjectId);
             match error r, data r with
             | Some e, _ => throw e
             | None, None => send 404 (Message "Farmer not found.")
             | None, Some updatedFarmer =>
                 send 200 (FarmerResult "Farmer record updated successfully." updatedFarmer)
             end in
         if negb (is_admin u) then
           let pu := select_project_user d targetProjectId (userId u) in
           match error pu, data pu with
           | None, Some _ =>
               authorizePermission "EDIT_FARMER_RECORDS" req (mret ());;
               update
           | _, _ =>
               send 403
                 (Message "You can only edit farmers in projects you are assigned to.")
           end
         else
           authorizePermission "EDIT_FARMER_RECORDS" req (mret ());;
           update
     | _, _ => send 404 (Message "Farmer not found.")
     end)
    farmer_catch.

(** DELETE /api/farmers/:id *)
Definition delete_farmer_route {B} (req : Request string B) : M unit :=
  let id := params req in
  try_catch
    (d ← get_db;
     let existing := select_farmer d id in
     match error existing, data existing with
     | None, Some existingFarmer =>
         u ← req_user "roleName" req;
         let remove : M unit :=
           err ← delete_farmer id;
           match err with
           | Some e => throw e
           | None => send 200 (Message "Farmer record deleted successfully.")
           end in
         if negb (is_admin u) then
           let pu := select_project_user d (project_id existingFarmer.2) (userId u) in
           match error pu, data pu with
           | None, Some _ =>
               authorizePermission "DELETE_FARMER_RECORDS" req (mret ());;
               remove
           | _, _ =>
               send 403
                 (Message "You can only delete farmers from projects you are assigned to.")
           end
         else
           authorizePermission "DELETE_FARMER_RECORDS" req (mret ());;
           remove
     | _, _ => send 404 (Message "Farmer not found.")
     end)
    farmer_catch.

(** ** routes/authRoutes.js *)

(** [Math.floor(100000 + Math.random() * 900000).toString()], where [draw]
    is [Math.floor(Math.random() * 900000)], a number below 900000. *)
Definition generateOTP (draw : N) : string := pretty (100000 + draw)%N.

Module LoginBody.
Record t := { email : option string; password : option string }.
End LoginBody.

Module VerifyBody.
Record t := { email : option string; otp : option string }.
End VerifyBody.

(** [from('users').select(...).eq('email', e).single()] *)
Definition select_user_by_email (d : DB) (e : string) : Reply (string * UserRow) :=
  single (map_to_list (filter (λ kv : string * UserRow, email kv.2 = e) (users d))).

Definition set_otp (v : option string) (u : UserRow) : UserRow :=
  {| user_full_name := user_full_name u; email := email u; role_id := role_id u;
     password_hash := password_hash u; activation_status := activation_status u;
     otp := v; is_active := is_active u |}.

(** [from('users').update({ otp: v }).eq('id', id)] *)
Definition update_user_otp (id : string) (v : option string) : M (option JsError) :=
  d ← get_db;
  put_db (with_users (alter (set_otp v) id) d);;
  emit (Stored id v);;
  mret None.

(** POST /api/auth/login *)
Definition login `{Bcrypt} {P} (draw : N) (req : Request P LoginBody.t) : M unit :=
  let b := body req in
  if negb (truthy_string (LoginBody.email b)) || negb (truthy_string (LoginBody.password b))
  then send 400 (Message "Please enter all fields.")
  else
    try_catch
      (d ← get_db;
       let r := select_user_by_email d (default EmptyString (LoginBody.email b)) in
       match error r, data r with
       | None, Some (id, user) =>
           let isMatch :=
             bcrypt_compare (default EmptyString (LoginBody.password b)) (password_hash user) in
           if negb isMatch then send 400 (Message "Invalid credentials.")
           else if negb (activation_status user) || negb (is_active user) then
             send 403 (Message "Your account is inactive. Please contact an administrator.")
           else
             let otp := generateOTP draw in
             updateOtpError ← update_user_otp id (Some otp);
             match updateOtpError with
             | Some e => throw e
             | None =>
                 emit (Mail (email user) otp);;
                 send 200 (Message "OTP sent to your email. Please verify to complete login.")
             end
       | _, _ => send 400 (Message "Invalid credentials.")
       end)
      (λ e, send 500 (ServerError "Server error during login." (message e))).

(** POST /api/auth/verify-otp *)
Definition verify_otp `{Jwt} {P} (req : Request P VerifyBody.t) : M unit :=
  let b := body req in
  if negb (truthy_string (VerifyBody.email b)) || negb (truthy_string (VerifyBody.otp b))
  then send 400 (Message "Email and OTP are required.")
  else
    try_catch
      (d ← get_db;
       let r := select_user_by_email d (default EmptyString (VerifyBody.email b)) in
       match error r, data r with
       | None, Some (id, user) =>
           if negb (bool_decide (otp user = VerifyBody.otp b)) then
             send 400 (Message "Invalid OTP.")
           else
             (* an error of the clearing update is logged and ignored *)
             update_user_otp id None;;
             match embed_role d (role_id user) with
             | None => throw (cannot_read "null" "role_name")
             | Some role =>
                 let payload := {| userId := id; claim_email := email user;
                                   roleName := role_name role |} in
                 emit (Signed payload);;
                 let token := jwt_sign payload in
                 send 200 (TokenResult "OTP verified successfully." token payload
                             (user_full_name user))
             end
       | _, _ => send 400 (Message "Invalid email or OTP.")
       end)
      (λ e, send 500 (ServerError "Server error during OTP verification." (message e))).

(** ** routes/roleRoutes.js *)

Module RoleBody.
Record t := { roleName : option string; permissionIds : option (list Z) }.
End RoleBody.

(** [from('roles').select('id').eq('role_name', name).neq('id', id)] *)
Definition select_other_roles (d : DB) (name : string) (id : Z) : list (Z * string) :=
  map_to_list (filter (λ kv : Z * string, kv.2 = name ∧ kv.1 ≠ id) (roles d)).

(** [from('roles').update({ role_name }).eq('id', id).select().single()];
    [role_name] is UNIQUE. *)
Definition update_role (id : Z) (name : string) : M (Reply (Z * string)) :=
  d ← get_db;
  match roles d !! id with
  | None => mret (single [])
  | Some _ =>
      match select_other_roles d name id with
      | [] => put_db (with_roles (insert id name) d);; mret (ok (id, name))
      | _ => mret (failed "duplicate key value violates unique constraint")
      end
  end.

(** [from('role_permissions').delete().eq('role_id', id)] *)
Definition delete_role_permissions (id : Z) : M (option JsError) :=
  d ← get_db;
  put_db (with_role_permissions (filter (λ rp : Z * Z, rp.1 ≠ id)) d);;
  mret None.

(** [from('role_permissions').insert(rows)]: one statement, all rows or none.
    The primary key is the pair; both columns are foreign keys. *)
Definition insert_role_permissions (rows : list (Z * Z)) : M (option JsError) :=
  d ← get_db;
  if negb (bool_decide (NoDup rows))
     || bool_decide (Exists (λ rp, rp ∈ role_permissions d) rows) then
    mret (Some {| message := "duplicate key value violates unique constraint" |})
  else if negb (forallb (λ rp : Z * Z,
                           bool_decide (is_Some (roles d !! rp.1))
                           && bool_decide (is_Some (permissions d !! rp.2))) rows) then
    mret (Some {| message := "insert or update on table violates foreign key constraint" |})
  else
    put_db (with_role_permissions (λ links, list_to_set rows ∪ links) d);;
    mret None.

(** PUT /api/roles/:id, the handler behind the two middlewares. *)
Definition put_role (req : Request Z RoleBody.t) : M unit :=
  let id := params req in
  let b := body req in
  let permissionIds := default [] (RoleBody.permissionIds b) in
  if negb (truthy_string (RoleBody.roleName b)) then
    send 400 (Message "Role name is required.")
  else
    let roleName := default EmptyString (RoleBody.roleName b) in
    try_catch
      (d ← get_db;
       let existingRole := single (select_other_roles d roleName id) in
       match data existingRole with
       | Some _ => send 400 (Message "Another role with this name already exists.")
       | None =>
           r ← update_role id roleName;
           match error r, data r with
           | Some e, _ => throw e
           | None, None => send 404 (Message "Role not found.")
           | None, Some updatedRole =>
               delete_role_permissions id;;
               (if (0 <? length permissionIds)%nat then
                  assignPermissionError ←
                    insert_role_permissions ((λ permission_id, (id, permission_id)) <$> permissionIds);
                  match assignPermissionError with
                  | Some e => throw e
                  | None => mret ()
                  end
                else mret ());;
               send 200 (RoleResult "Role updated successfully." updatedRole)
           end
       end)
      server_error.

(** ** Routes as the routers mount them *)

Definition GET_farmers `{Jwt} {P B} (req : Request P B) : M unit :=
  authenticateToken req get_farmers.

Definition GET_farmer `{Jwt} {B} (req : Request string B) : M unit :=
  authenticateToken req get_farmer.

Definition POST_farmers `{Jwt} {P} (new_id : string) (req : Request P FarmerBody.t) : M unit :=
  authenticateToken req (post_farmer new_id).

Definition PUT_farmer `{Jwt} (req : Request string FarmerBody.t) : M unit :=
  authenticateToken req put_farmer.

Definition DELETE_farmer `{Jwt} {B} (req : Request string B) : M unit :=
  authenticateToken req delete_farmer_route.


(** ** The initial data of README.md, with a few users, projects and farmers *)

Module Seed.

Definition permission_list : list (string * string) :=
  [ ("View Dashboard", "VIEW_DASHBOARD"); ("Manage Users", "MANAGE_USERS");
    ("Add Users", "ADD_USERS"); ("Edit Users", "EDIT_USERS");
    ("Delete Users", "DELETE_USERS"); ("View Roles", "VIEW_ROLES");
    ("Add Roles", "ADD_ROLES"); ("Edit Roles", "EDIT_ROLES");
    ("Delete Roles", "DELETE_ROLES"); ("View Permissions", "VIEW_PERMISSIONS");
    ("Add Permissions", "ADD_PERMISSIONS"); ("Edit Permissions", "EDIT_PERMISSIONS");
    ("Delete Permissions", "DELETE_PERMISSIONS"); ("View Projects", "VIEW_PROJECTS");
    ("Create Projects", "CREATE_PROJECTS"); ("Edit Projects", "EDIT_PROJECTS");
    ("Delete Projects", "DELETE_PROJECTS");
    ("View Farmer Records", "VIEW_FARMER_RECORDS");
    ("Add Farmer Records", "ADD_FARMER_RECORDS");
    ("Edit Farmer Records", "EDIT_FARMER_RECORDS");
    ("Delete Farmer Records", "DELETE_FARMER_RECORDS");
    ("View Farmer Types", "VIEW_FARMER_TYPES"); ("Add Farmer Types", "ADD_FARMER_TYPES");
    ("Edit Farmer Types", "EDIT_FARMER_TYPES");
    ("Delete Farmer Types", "DELETE_FARMER_TYPES"); ("View Quarters", "VIEW_QUARTERS");
    ("Add Quarters", "ADD_QUARTERS"); ("Edit Quarters", "EDIT_QUARTERS");
    ("Delete Quarters", "DELETE_QUARTERS"); ("Internal Chat", "INTERNAL_CHAT");
    ("Share Demo Links", "SHARE_DEMO_LINKS"); ("Analyze Data", "ANALYZE_DATA");
    ("Analyze Project Data", "ANALYZE_PROJECT_DATA") ].

(** Identity columns count from 1. *)
Definition permission_table : gmap Z PermissionRow :=
  list_to_map
    (imap (λ i p, (Z.of_nat (S i),
                   {| permission_name := p.1; permission_code := p.2 |}))
          permission_list).

Definition user_codes : list string :=
  [ "VIEW_DASHBOARD"; "VIEW_PROJECTS"; "VIEW_FARMER_RECORDS"; "ADD_FARMER_RECORDS";
    "EDIT_FARMER_RECORDS"; "INTERNAL_CHAT"; "SHARE_DEMO_LINKS"; "ANALYZE_PROJECT_DATA" ].

(** [SELECT r.id, p.id FROM roles r, permissions p WHERE ...] *)
Definition links : gset (Z * Z) :=
  list_to_set ((λ kv : Z * PermissionRow, (1, kv.1)) <$> map_to_list permission_table)
  ∪ list_to_set
      ((λ kv : Z * PermissionRow, (2, kv.1))
         <$> filter (λ kv : Z * PermissionRow, permission_code kv.2 ∈ user_codes)
                    (map_to_list permission_table)).

Definition account (name mail : string) (role : Z) (active : bool) : UserRow :=
  {| user_full_name := name; email := mail; role_id := role;
     password_hash := "$2a$10$" +:+ name; activation_status := true; otp := None;
     is_active := active |}.

Definition farmer (name : string) (project : Z) (by_user : string) : FarmerRow :=
  {| full_name := name; mobile_number := None; date_of_birth := None; age := None;
     gender := None; farmer_type_id := Some 1; country_name := None;
     state_name := None; district_name := None; village_tract_name := None;
     village_name := None; project_id := Some project;
     added_by_user_id := Some by_user; latitude := None; longitude := None |}.

(** Role 3 is a role made later through the API: it may only look. *)
Definition store : DB :=
  {| roles := {[ 1 := "Admin"; 2 := "User"; 3 := "Viewer" ]};
     permissions := permission_table;
     role_permissions := links ∪ {[ (3, 1); (3, 18) ]};
     users := {[ "u-admin" := account "Ada" "ada@fors.org" 1 true;
                 "u-field" := account "Femi" "femi@fors.org" 2 true;
                 "u-view" := account "Vera" "vera@fors.org" 3 true;
                 "u-off" := account "Omar" "omar@fors.org" 2 false ]};
     projects := {[ 1 := {| project_name := "Delta"; description := None;
                            project_status := Some true |};
                    2 := {| project_name := "Highlands"; description := None;
                            project_status := Some true |} ]};
     project_users := {[ (1, "u-field"); (1, "u-view") ]};
     farmer_types := {[ 1 := "Smallholder" ]};
     farmers := {[ "f-1" := farmer "Kofi" 1 "u-admin";
                   "f-2" := farmer "Lan" 2 "u-admin" ]} |}.

(** A permission created after the initial data, linked to no role. *)
Definition store_with_new_permission : DB :=
  {| roles := roles store;
     permissions := <[ 34 := {| permission_name := "Export Data";
                                  permission_code := "EXPORT_DATA" |} ]> (permissions store);
     role_permissions := role_permissions store; users := users store;
     projects := projects store; project_users := project_users store;
     farmer_types := farmer_types store; farmers := farmers store |}.

Definition claims_of (id mail role : string) : Claims :=
  {| userId := id; claim_email := mail; roleName := role |}.

(** A codec for the examples: the tokens in circulation and their payloads.
    ["t-field-as-admin"] stands for a token signed while the user still
    held the Admin role. *)
Definition tokens : gmap string Claims :=
  {[ "t-admin" := claims_of "u-admin" "ada@fors.org" "Admin";
     "t-field" := claims_of "u-field" "femi@fors.org" "User";
     "t-field-as-admin" := claims_of "u-field" "femi@fors.org" "Admin";
     "t-view" := claims_of "u-view" "vera@fors.org" "Viewer";
     "t-off" := claims_of "u-off" "omar@fors.org" "User";
     "t-gone" := claims_of "u-gone" "gone@fors.org" "User" ]}.

Definition jwt : Jwt :=
  {| jwt_sign c := "t-" +:+ userId c;
     jwt_verify t := tokens !! t |}.

Definition bcrypt : Bcrypt :=
  {| bcrypt_compare password hash := String.eqb hash ("$2a$10$" +:+ password) |}.

Definition request {P B} (token : string) (p : P) (b : B) : Request P B :=
  {| authorization := Some ("Bearer " +:+ token); user := None; params := p; body := b |}.

(** A create or update body that names a farmer, a type and a project. *)
Definition farmer_body (name : option string) (type project : option Z) : FarmerBody.t :=
  {| FarmerBody.fullName := name; FarmerBody.mobileNumber := None;
     FarmerBody.dateOfBirth := None; FarmerBody.age := None; FarmerBody.gender := None;
     FarmerBody.farmerTypeId := type; FarmerBody.countryName := None;
     FarmerBody.stateName := None; FarmerBody.districtName := None;
     FarmerBody.villageTractName := None; FarmerBody.villageName := None;
     FarmerBody.projectId := project; FarmerBody.latitude := None;
     FarmerBody.longitude := None |}.

End Seed.

(** ** The notions the properties are stated with *)


(** A middleware grants when it runs the rest of the chain and nothing else,
    and rejects when it answers by itself, whatever the rest of the chain is. *)
Definition passes (mw : M unit → M unit) (w : World) : Prop :=
  ∀ next, mw next w = next w.

Definition rejects {K} (mw : K → M unit) (code : Z) (b : Body) (w : World) : Prop :=
  ∀ next, mw next w = send code b w.

(** The code is among the permission codes linked to the role: a link row
    of the role leads to a permission row that carries exactly this code. *)
Definition linked (d : DB) (rid : Z) (code : string) : Prop :=
  ∃ pid p, (rid, pid) ∈ role_permissions d
           ∧ permissions d !! pid = Some p
           ∧ permission_code p = code.

Definition denial (code : string) : Body :=
  Message ("Access denied. Requires permission: " +:+ code).

(** The refusal of the scope check of the update handler. *)
Definition out_of_scope : Body :=
  Message "You can only edit farmers in projects you are assigned to.".

(** The projects a user is assigned to. *)
Definition assigned (d : DB) (uid : string) (p : Z) : Prop := (p, uid) ∈ project_users d.

Definition anonymous {B} (b : B) : Request unit B :=
  {| authorization := None; user := None; params := (); body := b |}.

Definition login_request (mail password : string) : Request unit LoginBody.t :=
  anonymous {| LoginBody.email := Some mail; LoginBody.password := Some password |}.

Definition verify_request (mail code : string) : Request unit VerifyBody.t :=
  anonymous {| VerifyBody.email := Some mail; VerifyBody.otp := Some code |}.

(** The row of the user, the only one with its e-mail address (UNIQUE). *)
Definition registered (d : DB) (id : string) (u : UserRow) : Prop :=
  users d !! id = Some u
  ∧ ∀ id' u', users d !! id' = Some u' → email u' = email u → id' = id.

(** The store after [update({ otp: v })] on the row of the user. *)
Definition pending (v : option string) (id : string) (d : DB) : DB :=
  with_users (alter (set_otp v) id) d.


(** ** The other handlers of the routers

    The handlers below answer with a message only, or with a role, so their
    bodies are among those above. [new_id] is the identity the store draws for
    an inserted row. *)

(** A route mounted as [authenticateToken, authorizePermission(code), handler]. *)
Definition guarded `{Jwt} {P B} (code : string) (handler : Request P B → M unit)
    (req : Request P B) : M unit :=
  authenticateToken req (λ req, authorizePermission code req (handler req)).

(** [from('roles').select('id').eq('role_name', name)] *)
Definition select_roles_named (d : DB) (name : string) : list (Z * string) :=
  map_to_list (filter (λ kv : Z * string, kv.2 = name) (roles d)).

(** [from('roles').insert({ role_name }).select().single()]; [role_name] is
    UNIQUE. *)
Definition insert_role (new_id : Z) (name : string) : M (Reply (Z * string)) :=
  d ← get_db;
  if bool_decide (is_Some (roles d !! new_id)) then
    mret (failed "duplicate key value violates unique constraint")
  else
    match select_roles_named d name with
    | [] => put_db (with_roles (insert new_id name) d);; mret (ok (new_id, name))
    | _ => mret (failed "duplicate key value violates unique constraint")
    end.

(** POST /api/roles, the handler behind the two middlewares. *)
Definition post_role {P} (new_id : Z) (req : Request P RoleBody.t) : M unit :=
  let b := body req in
  let permissionIds := default [] (RoleBody.permissionIds b) in
  if negb (truthy_string (RoleBody.roleName b)) then
    send 400 (Message "Role name is required.")
  else
    let roleName := default EmptyString (RoleBody.roleName b) in
    try_catch
      (d ← get_db;
       let existingRole := single (select_roles_named d roleName) in
       match data existingRole with
       | Some _ => send 400 (Message "Role with this name already exists.")
       | None =>
           r ← insert_role new_id roleName;
           match error r, data r with
           | Some e, _ => throw e
           | None, Some newRole =>
               (if (0 <? length permissionIds)%nat then
                  assignPermissionError ←
                    insert_role_permissions
                      ((λ permission_id, (newRole.1, permission_id)) <$> permissionIds);
                  match assignPermissionError with
                  | Some e => throw e
                  | None => mret ()
                  end
                else mret ());;
               send 201 (RoleResult "Role created successfully." newRole)
           | None, None =>
               (* not reached: [.single()] gives a row or an error *)
               throw (cannot_read "null" "id")
           end
       end)
      server_error.

(** [from('users').select('id').eq('role_id', id)] *)
Definition select_users_with_role (d : DB) (id : Z) : list string :=
  fst <$> map_to_list (filter (λ kv : string * UserRow, role_id kv.2 = id) (users d)).

(** [from('roles').delete().eq('id', id)]: [users.role_id] refers to the
    role and blocks the delete; the links of the role go with it (ON DELETE
    CASCADE). *)
Definition delete_role (id : Z) : M (option JsError) :=
  d ← get_db;
  match select_users_with_role d id with
  | [] =>
      put_db (with_role_permissions (filter (λ rp : Z * Z, rp.1 ≠ id))
                (with_roles (delete id) d));;
      mret None
  | _ =>
      mret (Some {| message := "update or delete on table violates foreign key constraint" |})
  end.

(** DELETE /api/roles/:id *)
Definition delete_role_route {B} (req : Request Z B) : M unit :=
  let id := params req in
  try_catch
    (d ← get_db;
     let usersWithRole := select_users_with_role d id in
     if (0 <? length usersWithRole)%nat then
       send 400 (Message "Cannot delete role: Users are currently assigned to this role.")
     else
       deleteRolePermissionsError ← delete_role_permissions id;
       match deleteRolePermissionsError with
       | Some e => throw e
       | None =>
           deleteRoleError ← delete_role id;
           match deleteRoleError with
           | Some e => throw e
           | None => send 200 (Message "Role deleted successfully.")
           end
       end)
    server_error.

(** [from('role_permissions').select('permission_id').eq('permission_id', id)] *)
Definition select_links_of_permission (d : DB) (id : Z) : list Z :=
  snd <$> elements (filter (λ rp : Z * Z, rp.2 = id) (role_permissions d)).

(** [from('permissions').delete().eq('id', id)]; the links to the permission
    go with it (ON DELETE CASCADE). *)
Definition delete_permission (id : Z) : M (option JsError) :=
  d ← get_db;
  put_db {| roles := roles d; permissions := delete id (permissions d);
            role_permissions := filter (λ rp : Z * Z, rp.2 ≠ id) (role_permissions d);
            users := users d; projects := projects d;
            project_users := project_users d; farmer_types := farmer_types d;
            farmers := farmers d |};;
  mret None.

(** DELETE /api/permissions/:id *)
Definition delete_permission_route {B} (req : Request Z B) : M unit :=
  let id := params req in
  try_catch
    (d ← get_db;
     let rolePermissions := select_links_of_permission d id in
     if (0 <? length rolePermissions)%nat then
       send 400
         (Message "Cannot delete permission: It is currently assigned to one or more roles.")
     else
       error ← delete_permission id;
       match error with
       | Some e => throw e
       | None => send 200 (Message "Permission deleted successfully.")
       end)
    server_error.

(** [from('farmers').select('id').eq('farmer_type_id', id)] *)
Definition select_farmers_of_type (d : DB) (id : Z) : list string :=
  fst <$> map_to_list
            (filter (λ kv : string * FarmerRow, farmer_type_id kv.2 = Some id) (farmers d)).

(** [from('farmer_types').delete().eq('id', id)]; [farmers.farmer_type_id]
    refers to the type and blocks the delete. *)
Definition delete_farmer_type (id : Z) : M (option JsError) :=
  d ← get_db;
  match select_farmers_of_type d id with
  | [] =>
      put_db {| roles := roles d; permissions := permissions d;
                role_permissions := role_permissions d; users := users d;
                projects := projects d; project_users := project_users d;
                farmer_types := delete id (farmer_types d); farmers := farmers d |};;
      mret None
  | _ =>
      mret (Some {| message := "update or delete on table violates foreign key constraint" |})
  end.

(** DELETE /api/farmer-types/:id *)
Definition delete_farmer_type_route {B} (req : Request Z B) : M unit :=
  let id := params req in
  try_catch
    (d ← get_db;
     let linkedFarmers := select_farmers_of_type d id in
     if (0 <? length linkedFarmers)%nat then
       send 400
         (Message "Cannot delete farmer type: It is currently linked to existing farmer records.")
     else
       error ← delete_farmer_type id;
       match error with
       | Some e => throw e
       | None => send 200 (Message "Farmer type deleted successfully.")
       end)
    server_error.

Definition with_project_users (f : gset (Z * string) → gset (Z * string)) (d : DB) : DB :=
  {| roles := roles d; permissions := permissions d;
     role_permissions := role_permissions d; users := users d;
     projects := projects d; project_users := f (project_users d);
     farmer_types := farmer_types d; farmers := farmers d |}.

(** [from('project_users').delete().eq('project_id', id)] *)
Definition delete_project_users (id : Z) : M (option JsError) :=
  d ← get_db;
  put_db (with_project_users (filter (λ pu : Z * string, pu.1 ≠ id)) d);;
  mret None.

(** [from('farmers').delete().eq('project_id', id)] *)
Definition delete_farmers_of_project (id : Z) : M (option JsError) :=
  d ← get_db;
  put_db (with_farmers (filter (λ kv : string * FarmerRow, project_id kv.2 ≠ Some id)) d);;
  mret None.

(** [from('projects').delete().eq('id', id)]: [farmers.project_id] refers to
    the project and blocks the delete; the assignments to the project go with
    it (ON DELETE CASCADE). *)
Definition delete_project (id : Z) : M (option JsError) :=
  d ← get_db;
  if bool_decide (map_Exists (λ _ row, project_id row = Some id) (farmers d)) then
    mret (Some {| message := "update or delete on table violates foreign key constraint" |})
  else
    put_db {| roles := roles d; permissions := permissions d;
              role_permissions := role_permissions d; users := users d;
              projects := delete id (projects d);
              project_users := filter (λ pu : Z * string, pu.1 ≠ id) (project_users d);
              farmer_types := farmer_types d; farmers := farmers d |};;
    mret None.

(** DELETE /api/projects/:id; an error of the delete of the farmers is
    logged and passed over. *)
Definition delete_project_route {B} (req : Request Z B) : M unit :=
  let id := params req in
  try_catch
    (deleteProjectUsersError ← delete_project_users id;
     match deleteProjectUsersError with
     | Some e => throw e
     | None =>
         delete_farmers_of_project id;;
         deleteProjectError ← delete_project id;
         match deleteProjectError with
         | Some e => throw e
         | None => send 200 (Message "Project deleted successfully.")
         end
     end)
    server_error.

(** [from('users').delete().eq('id', id)]: [farmers.added_by_user_id] refers
    to the user and blocks the delete; the assignments of the user go with it
    (ON DELETE CASCADE). *)
Definition delete_user (id : string) : M (option JsError) :=
  d ← get_db;
  if bool_decide (map_Exists (λ _ row, added_by_user_id row = Some id) (farmers d)) then
    mret (Some {| message := "update or delete on table violates foreign key constraint" |})
  else
    put_db {| roles := roles d; permissions := permissions d;
              role_permissions := role_permissions d; users := delete id (users d);
              projects := projects d;
              project_users := filter (λ pu : Z * string, pu.2 ≠ id) (project_users d);
              farmer_types := farmer_types d; farmers := farmers d |};;
    mret None.

(** DELETE /api/users/:id *)
Definition delete_user_route {B} (req : Request string B) : M unit :=
  let id := params req in
  try_catch
    (error ← delete_user id;
     match error with
     | Some e => throw e
     | None => send 200 (Message "User deleted successfully.")
     end)
    server_error.

(** An update body that carries no field. *)
Definition no_fields : FarmerBody.t :=
  {| FarmerBody.fullName := None; FarmerBody.mobileNumber := None;
     FarmerBody.dateOfBirth := None; FarmerBody.age := None; FarmerBody.gender := None;
     FarmerBody.farmerTypeId := None; FarmerBody.countryName := None;
     FarmerBody.stateName := None; FarmerBody.districtName := None;
     FarmerBody.villageTractName := None; FarmerBody.villageName := None;
     FarmerBody.projectId := None; FarmerBody.latitude := None;
     FarmerBody.longitude := None |}.

(** A create body with every column given: the position is 6.123456789012
    north and 3.5 east. *)
Definition surveyed : FarmerBody.t :=
  {| FarmerBody.fullName := Some "Mara"; FarmerBody.mobileNumber := Some "0801234567";
     FarmerBody.dateOfBirth := Some {| Date.year := 1992; Date.month := 2; Date.day := 29 |};
     FarmerBody.age := Some 33; FarmerBody.gender := Some "female";
     FarmerBody.farmerTypeId := Some 1; FarmerBody.countryName := Some "Nigeria";
     FarmerBody.stateName := Some "Oyo"; FarmerBody.districtName := Some "Ibadan North";
     FarmerBody.villageTractName := Some "Agodi"; FarmerBody.villageName := Some "Bodija";
     FarmerBody.projectId := Some 1;
     FarmerBody.latitude := Some {| Numeric.digits := 6123456789012; Numeric.scale := 12 |};
     FarmerBody.longitude := Some {| Numeric.digits := 35; Numeric.scale := 1 |} |}.

(** The row the store makes of it: 6.12345679 north and 3.50000000 east. *)
Definition surveyed_row (by_user : string) : FarmerRow :=
  {| full_name := "Mara"; mobile_number := Some "0801234567";
     date_of_birth := Some {| Date.year := 1992; Date.month := 2; Date.day := 29 |};
     age := Some 33; gender := Some "female"; farmer_type_id := Some 1;
     country_name := Some "Nigeria"; state_name := Some "Oyo";
     district_name := Some "Ibadan North"; village_tract_name := Some "Agodi";
     village_name := Some "Bodija"; project_id := Some 1;
     added_by_user_id := Some by_user;
     latitude := Some {| Numeric.digits := 612345679; Numeric.scale := 8 |};
     longitude := Some {| Numeric.digits := 350000000; Numeric.scale := 8 |} |}.

(** * Proofs *)

Ltac run :=
  unfold mbind, M_bind, mret, M_ret, get_db, put_db, emit, req_user, throw, try_catch;
  simpl.

(** The helpers on the values the handlers read. *)
Example split_space_examples :
  split_space "Bearer abc.def" = ["Bearer"; "abc.def"]
  ∧ split_space "Bearer  x" = ["Bearer"; ""; "x"]
  ∧ split_space "" = [""]
  ∧ bearer (Some "Bearer abc.def") = Some "abc.def"
  ∧ bearer (Some "abc.def") = None
  ∧ bearer (Some "Bearer ") = Some ""
  ∧ bearer None = None.
Proof. repeat split. Qed.

Example includes_examples :
  includes "Access denied" "Access denied. Requires permission: X" = true
  ∧ includes "Access denied" (message headers_sent) = false
  ∧ includes "" "" = true.
Proof. repeat split. Qed.

Example generateOTP_examples :
  generateOTP 0 = "100000" ∧ generateOTP 23456 = "123456" ∧ generateOTP 899999 = "999999".
Proof. vm_compute. done. Qed.

Lemma send_start code b d : send code b (start d) = (Ret (), answered code b (start d)).
Proof. reflexivity. Qed.

(** ** The permission resolver *)

Section Resolver.
Context {P B : Type}.
Implicit Types (req : Request P B) (d : DB) (w : World) (code : string).

Lemma some_code_linked d rid name code :
  roles d !! rid = Some name →
  ∃ role, embed_role d rid = Some role
          ∧ role_name role = name
          ∧ (existsb (has_code code) (embedded_permissions role) = true
             ↔ linked d rid code).
Proof.
  intros Hrole. unfold embed_role. rewrite Hrole. simpl.
  eexists. split; [reflexivity|]. split; [reflexivity|]. simpl.
  rewrite existsb_exists. split.
  - intros (rp & Hin & Hcode). apply list_elem_of_In in Hin.
    apply list_elem_of_fmap in Hin as ([r pid] & -> & Hin).
    apply elem_of_elements, elem_of_filter in Hin as [Hr Hin].
    simpl in *. subst r.
    destruct (permissions d !! pid) as [p|] eqn:Hp; [|discriminate].
    simpl in Hcode. apply String.eqb_eq in Hcode.
    exists pid, p. done.
  - intros (pid & p & Hin & Hp & Hcode).
    exists (Some p). split.
    + apply list_elem_of_In, list_elem_of_fmap. exists (rid, pid). split.
      * simpl. by rewrite Hp.
      * apply elem_of_elements, elem_of_filter. done.
    + simpl. by apply String.eqb_eq.
Qed.

Lemma linked_decided d rid name code :
  roles d !! rid = Some name → linked d rid code ∨ ¬ linked d rid code.
Proof.
  intros Hrole.
  destruct (some_code_linked _ _ _ code Hrole) as (role & _ & _ & Hiff).
  destruct (existsb (has_code code) (embedded_permissions role)).
  - left. by apply Hiff.
  - right. intros Hl. apply Hiff in Hl. discriminate.
Qed.

Lemma authorizePermission_linked code req c u name w :
  user req = Some c →
  users (db w) !! userId c = Some u →
  roles (db w) !! role_id u = Some name →
  linked (db w) (role_id u) code →
  passes (authorizePermission code req) w.
Proof.
  intros Hc Hu Hrole Hl next.
  destruct (some_code_linked _ _ _ code Hrole) as (role & Hemb & _ & Hiff).
  unfold authorizePermission. run. rewrite Hc. simpl.
  unfold select_user_role. rewrite Hu. simpl. rewrite Hemb. simpl.
  apply Hiff in Hl. by rewrite Hl.
Qed.

Lemma authorizePermission_not_linked code req c u name w :
  user req = Some c →
  users (db w) !! userId c = Some u →
  roles (db w) !! role_id u = Some name →
  ¬ linked (db w) (role_id u) code →
  rejects (authorizePermission code req) 403 (denial code) w.
Proof.
  intros Hc Hu Hrole Hl next.
  destruct (some_code_linked _ _ _ code Hrole) as (role & Hemb & _ & Hiff).
  unfold authorizePermission. run. rewrite Hc. simpl.
  unfold select_user_role. rewrite Hu. simpl. rewrite Hemb. simpl.
  destruct (existsb (has_code code) (embedded_permissions role)) eqn:He.
  - exfalso. apply Hl, Hiff. reflexivity.
  - reflexivity.
Qed.

(** The three ways the middleware ends for a request with a payload. *)
Lemma authorizePermission_cases code req c next w :
  user req = Some c →
  authorizePermission code req next w = next w
  ∨ authorizePermission code req next w = send 403 (denial code) w
  ∨ authorizePermission code req next w
    = send 403 (Message "User permissions not found or access denied.") w.
Proof.
  intros Hc. unfold authorizePermission. run. rewrite Hc. simpl.
  destruct (select_user_role (db w) (userId c)) as [[[role|]|] [e|]]; simpl; eauto.
  destruct (existsb _ _); simpl; eauto.
Qed.

(** An identity without a row, or whose role row is missing, is rejected. *)
Lemma authorizePermission_unknown code req c w :
  user req = Some c →
  (users (db w) !! userId c = None
   ∨ ∃ u, users (db w) !! userId c = Some u ∧ roles (db w) !! role_id u = None) →
  rejects (authorizePermission code req) 403
    (Message "User permissions not found or access denied.") w.
Proof.
  intros Hc Hu next. unfold authorizePermission. run. rewrite Hc. simpl.
  unfold select_user_role.
  destruct Hu as [->|(u & -> & Hrole)]; [done|].
  simpl. unfold embed_role. by rewrite Hrole.
Qed.

(** Granting and rejecting exclude each other: a chain that throws tells
    them apart. *)
Lemma passes_rejects_exclusive (mw : M unit → M unit) (st : Z) b w :
  passes mw w → rejects mw st b w → False.
Proof.
  intros Hp Hr.
  specialize (Hp (throw {| message := "probe" |})).
  specialize (Hr (throw {| message := "probe" |})).
  rewrite Hp in Hr. unfold throw, send in Hr.
  destruct (res w); discriminate.
Qed.

Lemma authorize_decides code req c u name w :
  user req = Some c →
  users (db w) !! userId c = Some u →
  roles (db w) !! role_id u = Some name →
  (passes (authorizePermission code req) w ↔ linked (db w) (role_id u) code)
  ∧ (rejects (authorizePermission code req) 403 (denial code) w
     ↔ ¬ linked (db w) (role_id u) code).
Proof.
  intros Hc Hu Hrole. split; split.
  - intros Hp. destruct (linked_decided _ _ _ code Hrole) as [|Hn]; [done|].
    exfalso. eapply passes_rejects_exclusive; [exact Hp|].
    by eapply authorizePermission_not_linked.
  - by eapply authorizePermission_linked.
  - intros Hr Hl. eapply passes_rejects_exclusive; [|exact Hr].
    by eapply authorizePermission_linked.
  - by eapply authorizePermission_not_linked.
Qed.
End Resolver.

(** C4. For every identity of the store and every required permission
    code, [authorizePermission] grants (runs the rest of the chain) if and
    only if a link row of the identity's role leads to a permission whose code
    equals the required code, string for string; otherwise it answers 403
    with the denial message and runs nothing. *)
Theorem authorize_granted_iff_linked {P B} (code : string) (req : Request P B)
    (c : Claims) (u : UserRow) (name : string) (w : World) :
  user req = Some c →
  users (db w) !! userId c = Some u →
  roles (db w) !! role_id u = Some name →
  (passes (authorizePermission code req) w ↔ linked (db w) (role_id u) code)
  ∧ (rejects (authorizePermission code req) 403 (denial code) w
     ↔ ¬ linked (db w) (role_id u) code).
Proof. apply authorize_decides. Qed.

Lemma authorize_granted_iff_linked_witness :
  let req := attach (Seed.claims_of "u-field" "femi@fors.org" "User")
               (Seed.request "t-field" () ()) in
  let w := start Seed.store in
  (passes (authorizePermission "VIEW_FARMER_RECORDS" req) w
   ↔ linked (db w) 2 "VIEW_FARMER_RECORDS")
  ∧ (rejects (authorizePermission "VIEW_FARMER_RECORDS" req) 403
       (denial "VIEW_FARMER_RECORDS") w
     ↔ ¬ linked (db w) 2 "VIEW_FARMER_RECORDS").
Proof.
  intros req w.
  apply (authorize_granted_iff_linked "VIEW_FARMER_RECORDS" req
           (Seed.claims_of "u-field" "femi@fors.org" "User")
           (Seed.account "Femi" "femi@fors.org" 2 true) "User" w);
    vm_compute; reflexivity.
Defined.

(** Codes are flat: a prefix, another case or a wildcard of a linked code
    is not granted. *)
Example no_prefix_no_case_no_wildcard :
  let req := attach (Seed.claims_of "u-field" "femi@fors.org" "User")
               (Seed.request "t-field" () ()) in
  let out code := res (authorizePermission code req (mret ()) (start Seed.store)).2 in
  out "VIEW_FARMER_RECORDS" = None
  ∧ out "VIEW_FARMER" = Some {| status := 403; json := denial "VIEW_FARMER" |}
  ∧ out "view_farmer_records" = Some {| status := 403; json := denial "view_farmer_records" |}
  ∧ out "*" = Some {| status := 403; json := denial "*" |}.
Proof. vm_compute. done. Qed.

(** C1, as the code has it. The resolver has no short-circuit for the
    administrator: for an identity whose role is named Admin, in the token
    and in the store, [authorizePermission] grants if and only if a link row
    of that role leads to the required code, as for any other role. *)
Theorem admin_granted_iff_linked {P B} (code : string) (req : Request P B)
    (c : Claims) (u : UserRow) (w : World) :
  user req = Some c →
  roleName c = "Admin" →
  users (db w) !! userId c = Some u →
  roles (db w) !! role_id u = Some "Admin" →
  (passes (authorizePermission code req) w ↔ linked (db w) (role_id u) code)
  ∧ (rejects (authorizePermission code req) 403 (denial code) w
     ↔ ¬ linked (db w) (role_id u) code).
Proof. intros Hc _ Hu Hrole. by eapply authorize_decides. Qed.

Lemma admin_granted_iff_linked_witness :
  let req := attach (Seed.claims_of "u-admin" "ada@fors.org" "Admin")
               (Seed.request "t-admin" () ()) in
  let w := start Seed.store in
  (passes (authorizePermission "EDIT_ROLES" req) w ↔ linked (db w) 1 "EDIT_ROLES")
  ∧ (rejects (authorizePermission "EDIT_ROLES" req) 403 (denial "EDIT_ROLES") w
     ↔ ¬ linked (db w) 1 "EDIT_ROLES").
Proof.
  intros req w.
  apply (admin_granted_iff_linked "EDIT_ROLES" req
           (Seed.claims_of "u-admin" "ada@fors.org" "Admin")
           (Seed.account "Ada" "ada@fors.org" 1 true) w);
    vm_compute; reflexivity.
Defined.

(** C1, as stated, fails: an Admin identity is denied a code that no link
    row gives to the Admin role. *)
Lemma admin_denied_without_link :
  let d := Seed.store_with_new_permission in
  let c := Seed.claims_of "u-admin" "ada@fors.org" "Admin" in
  let req := attach c (Seed.request "t-admin" () ()) in
  (role_id <$> users d !! userId c) = Some 1
  ∧ roles d !! 1 = Some "Admin"
  ∧ ¬ passes (authorizePermission "EXPORT_DATA" req) (start d)
  ∧ authorizePermission "EXPORT_DATA" req (mret ()) (start d)
    = (Ret (), answered 403 (denial "EXPORT_DATA") (start d)).
Proof.
  intros d c req. repeat split.
  intros Hp. specialize (Hp (throw {| message := "probe" |})).
  vm_compute in Hp. discriminate.
Qed.

(** ** The authentication gate *)

Section Gate.
Context `{Jwt} {P B : Type}.
Implicit Types (req : Request P B) (d : DB) (token : string).

Lemma truthy_token token : token ≠ EmptyString → truthy_string (Some token) = true.
Proof.
  intros Hne. simpl. destruct (String.eqb token "") eqn:E; [|done].
  by apply String.eqb_eq in E.
Qed.

Lemma gate_verifies req token (next : Request P B → M unit) w :
  bearer (authorization req) = Some token →
  token ≠ EmptyString →
  authenticateToken req next w
  = match jwt_verify token with
    | None => send 403 (Message "Invalid or expired token.") w
    | Some payload =>
        let r := select_user_status (db w) (userId payload) in
        match error r, data r with
        | None, Some (is_active, activation_status) =>
            if negb is_active || negb activation_status then
              send 403 (Message "User is inactive or not found.") w
            else next (attach payload req) w
        | _, _ => send 403 (Message "User is inactive or not found.") w
        end
    end.
Proof.
  intros Hb Hne. unfold authenticateToken. rewrite Hb, truthy_token by done.
  simpl. destruct (jwt_verify token) as [payload|]; [|done].
  run. destruct (select_user_status (db w) (userId payload)) as [[[a s]|] [e|]];
    simpl; try done.
  by destruct (negb a || negb s).
Qed.

Lemma gate_admits req token payload usr (next : Request P B → M unit) w :
  bearer (authorization req) = Some token →
  token ≠ EmptyString →
  jwt_verify token = Some payload →
  users (db w) !! userId payload = Some usr →
  is_active usr = true →
  activation_status usr = true →
  authenticateToken req next w = next (attach payload req) w.
Proof.
  intros Hb Hne Hv Hu Hon Hact. rewrite (gate_verifies req token) by done.
  rewrite Hv. unfold select_user_status. rewrite Hu. simpl.
  by rewrite Hon, Hact.
Qed.
End Gate.

(** C2, as the code has it. A request whose bearer token the codec rejects
    (bad signature, malformed, expired) is answered 403 with "Invalid or
    expired token."; the rest of the chain is not run and the store is
    untouched. *)
Theorem rejected_token_answers_403 `{Jwt} {P B} (req : Request P B) (token : string)
    (d : DB) (next : Request P B → M unit) :
  bearer (authorization req) = Some token →
  token ≠ EmptyString →
  jwt_verify token = None →
  authenticateToken req next (start d)
  = (Ret (), answered 403 (Message "Invalid or expired token.") (start d)).
Proof.
  intros Hb Hne Hv. rewrite (gate_verifies req token) by done. by rewrite Hv.
Qed.

Lemma rejected_token_answers_403_witness :
  authenticateToken (H := Seed.jwt) (Seed.request "t-forged" () ()) get_farmers
    (start Seed.store)
  = (Ret (), answered 403 (Message "Invalid or expired token.") (start Seed.store)).
Proof.
  apply (rejected_token_answers_403 (H := Seed.jwt) _ "t-forged");
    [reflexivity | discriminate | reflexivity].
Defined.

(** C2, as stated, fails: the answer to a rejected token is 403, not 401. *)
Lemma rejected_token_is_not_401 :
  let out := GET_farmers (H := Seed.jwt) (Seed.request "t-forged" () ()) (start Seed.store) in
  jwt_verify (Jwt := Seed.jwt) "t-forged" = None
  ∧ (status <$> res out.2) = Some 403
  ∧ (status <$> res out.2) ≠ Some 401.
Proof. vm_compute. repeat split; discriminate. Qed.

(** C3. When the token verifies but the subject is not in the store, or is
    not active, or is not activated, the gate answers 403 and runs no handler:
    the result is the same for every rest of the chain, and the store is
    untouched. Every protected route starts with this gate. *)
Theorem inactive_subject_answers_403 `{Jwt} {P B} (req : Request P B) (token : string)
    (payload : Claims) (d : DB) (next : Request P B → M unit) :
  bearer (authorization req) = Some token →
  token ≠ EmptyString →
  jwt_verify token = Some payload →
  (users d !! userId payload = None
   ∨ ∃ u, users d !! userId payload = Some u
          ∧ (is_active u = false ∨ activation_status u = false)) →
  authenticateToken req next (start d)
  = (Ret (), answered 403 (Message "User is inactive or not found.") (start d)).
Proof.
  intros Hb Hne Hv Hu. rewrite (gate_verifies req token) by done. rewrite Hv.
  unfold select_user_status. simpl.
  destruct Hu as [->|(u & -> & Hoff)]; [done|]. simpl.
  destruct Hoff as [->| ->]; [done|].
  by destruct (is_active u).
Qed.

Lemma inactive_subject_answers_403_witness :
  authenticateToken (H := Seed.jwt) (Seed.request "t-off" "f-1" ()) delete_farmer_route
    (start Seed.store)
  = (Ret (), answered 403 (Message "User is inactive or not found.") (start Seed.store)).
Proof.
  apply (inactive_subject_answers_403 (H := Seed.jwt) _ "t-off"
           (Seed.claims_of "u-off" "omar@fors.org" "User"));
    [reflexivity | discriminate | reflexivity |].
  right. exists (Seed.account "Omar" "omar@fors.org" 2 false).
  split; [reflexivity | left; reflexivity].
Defined.

(** ** The project scope *)

Lemma select_project_user_assigned d p uid :
  assigned d uid p → select_project_user d (Some p) uid = ok p.
Proof.
  intros Hin. unfold select_project_user.
  assert (filter (λ pu : Z * string, pu.1 = p ∧ pu.2 = uid) (project_users d)
          = {[ (p, uid) ]}) as ->.
  { apply set_eq. intros [q v]. rewrite elem_of_filter, elem_of_singleton. simpl.
    split.
    - by intros [[-> ->] _].
    - intros [= -> ->]. done. }
  by rewrite elements_singleton.
Qed.

Lemma select_project_user_unassigned d p uid :
  ¬ assigned d uid p → select_project_user d (Some p) uid = single [].
Proof.
  intros Hout. unfold select_project_user.
  assert (filter (λ pu : Z * string, pu.1 = p ∧ pu.2 = uid) (project_users d) = ∅) as ->.
  { apply set_eq. intros [q v]. rewrite elem_of_filter. simpl. split.
    - intros [[-> ->] Hin]. by destruct Hout.
    - by intros ?%not_elem_of_empty. }
  by rewrite elements_empty.
Qed.

Lemma select_user_projects_assigned d uid p :
  p ∈ select_user_projects d uid ↔ assigned d uid p.
Proof.
  unfold select_user_projects, assigned. rewrite list_elem_of_fmap. split.
  - intros ([q v] & -> & Hin). apply elem_of_elements, elem_of_filter in Hin.
    simpl in *. by destruct Hin as [-> ?].
  - intros Hin. exists (p, uid). split; [done|].
    by apply elem_of_elements, elem_of_filter.
Qed.

Lemma not_admin c : roleName c ≠ "Admin" → is_admin c = false.
Proof. intros Hne. unfold is_admin. by apply String.eqb_neq. Qed.

Lemma select_farmers_in d ids id row :
  (id, row) ∈ select_farmers d (Some ids)
  ↔ farmers d !! id = Some row ∧ ∃ p, project_id row = Some p ∧ p ∈ ids.
Proof.
  unfold select_farmers. rewrite elem_of_map_to_list, map_lookup_filter_Some.
  unfold project_in. simpl. split.
  - intros [Hrow Hp]. split; [done|].
    destruct (project_id row) as [p|]; [|done].
    exists p. split; [done|]. by apply bool_decide_eq_true in Hp.
  - intros [Hrow (p & -> & Hp)]. split; [done|]. by apply bool_decide_eq_true.
Qed.

(** The handler behind the gate. *)
Lemma get_farmers_scoped {P B} (req : Request P B) (u : Claims) (d : DB) :
  user req = Some u →
  roleName u ≠ "Admin" →
  ∃ rows,
    get_farmers req (start d) = (Ret (), answered 200 (FarmerList rows) (start d))
    ∧ (∀ id row, (id, row) ∈ rows
                 ↔ farmers d !! id = Some row
                   ∧ ∃ p, project_id row = Some p ∧ assigned d (userId u) p)
    ∧ ((∀ p, ¬ assigned d (userId u) p) → rows = []).
Proof.
  intros Hu Hrole. unfold get_farmers. run. rewrite Hu. simpl.
  rewrite (not_admin _ Hrole). simpl.
  destruct (select_user_projects d (userId u)) as [|p0 ids] eqn:Hids; simpl.
  - exists []. split; [done|]. split; [|done].
    intros id row. split; [by intros ?%elem_of_nil|].
    intros (_ & p & _ & Hp). apply select_user_projects_assigned in Hp.
    rewrite Hids in Hp. by apply elem_of_nil in Hp.
  - exists (select_farmers d (Some (p0 :: ids))). split; [done|]. split.
    + intros id row. rewrite select_farmers_in, <- Hids.
      by setoid_rewrite select_user_projects_assigned.
    + intros Hnone. exfalso. apply (Hnone p0).
      apply select_user_projects_assigned. rewrite Hids. by left.
Qed.

(** C6, as the code has it. For an active identity whose verified token
    carries a role name other than Admin, GET /api/farmers answers 200 with
    exactly the farmers whose project is one the identity is assigned to;
    with no assignment the answer is 200 with the empty list. The role name
    is the one of the token, whatever role the identity holds in the store. *)
Theorem farmer_read_is_scoped `{Jwt} {P B} (req : Request P B) (token : string)
    (u : Claims) (usr : UserRow) (d : DB) :
  bearer (authorization req) = Some token →
  token ≠ EmptyString →
  jwt_verify token = Some u →
  users d !! userId u = Some usr →
  is_active usr = true →
  activation_status usr = true →
  roleName u ≠ "Admin" →
  ∃ rows,
    GET_farmers req (start d) = (Ret (), answered 200 (FarmerList rows) (start d))
    ∧ (∀ id row, (id, row) ∈ rows
                 ↔ farmers d !! id = Some row
                   ∧ ∃ p, project_id row = Some p ∧ assigned d (userId u) p)
    ∧ ((∀ p, ¬ assigned d (userId u) p) → rows = []).
Proof.
  intros Hb Hne Hv Hu Hon Hact Hrole. unfold GET_farmers.
  rewrite (gate_admits req token u usr) by done.
  by apply get_farmers_scoped.
Qed.

Lemma farmer_read_is_scoped_witness :
  ∃ rows,
    GET_farmers (H := Seed.jwt) (Seed.request "t-field" () ()) (start Seed.store)
    = (Ret (), answered 200 (FarmerList rows) (start Seed.store))
    ∧ (∀ id row, (id, row) ∈ rows
                 ↔ farmers Seed.store !! id = Some row
                   ∧ ∃ p, project_id row = Some p ∧ assigned Seed.store "u-field" p)
    ∧ ((∀ p, ¬ assigned Seed.store "u-field" p) → rows = []).
Proof.
  apply (farmer_read_is_scoped (H := Seed.jwt) _ "t-field"
           (Seed.claims_of "u-field" "femi@fors.org" "User")
           (Seed.account "Femi" "femi@fors.org" 2 true));
    try reflexivity; discriminate.
Defined.

(** C6, as stated, fails: an identity that holds the role User in the store,
    assigned to project 1 only, presents a verified token that still carries
    the role name Admin, and is returned the farmer of project 2 as well. *)
Lemma stale_admin_token_reads_unassigned_farmers :
  let out := GET_farmers (H := Seed.jwt) (Seed.request "t-field-as-admin" () ())
               (start Seed.store) in
  jwt_verify (Jwt := Seed.jwt) "t-field-as-admin"
  = Some (Seed.claims_of "u-field" "femi@fors.org" "Admin")
  ∧ (role_id <$> users Seed.store !! "u-field") = Some 2
  ∧ roles Seed.store !! 2 = Some "User"
  ∧ select_user_projects Seed.store "u-field" = [1]
  ∧ (project_id <$> farmers Seed.store !! "f-2") = Some (Some 2)
  ∧ res out.2
    = Some {| status := 200;
              json := FarmerList [("f-1", Seed.farmer "Kofi" 1 "u-admin");
                                  ("f-2", Seed.farmer "Lan" 2 "u-admin")] |}.
Proof. vm_compute. done. Qed.

(** A user with no assignment reads the empty list, not an error. *)
Example unassigned_user_reads_nothing :
  let d := with_users (insert "u-new" (Seed.account "Nia" "nia@fors.org" 2 true)) Seed.store in
  get_farmers (attach (Seed.claims_of "u-new" "nia@fors.org" "User") (anonymous ())) (start d)
  = (Ret (), answered 200 (FarmerList []) (start d)).
Proof. reflexivity. Qed.

(** The handler behind the gate. *)
Lemma put_farmer_checks_destination (req : Request string FarmerBody.t)
    (u : Claims) (d : DB) (existing : FarmerRow) (p : Z) :
  user req = Some u →
  roleName u ≠ "Admin" →
  farmers d !! params req = Some existing →
  FarmerBody.projectId (body req) = Some p →
  p ≠ 0 →
  ¬ assigned d (userId u) p →
  target_project (FarmerBody.projectId (body req)) (project_id existing) = Some p
  ∧ put_farmer req (start d)
    = (Ret (),
       answered 403
         (Message "You can only edit farmers in projects you are assigned to.")
         (start d)).
Proof.
  intros Hu Hrole Hf Hp Hp0 Hout.
  assert (target_project (FarmerBody.projectId (body req)) (project_id existing) = Some p)
    as Ht.
  { unfold target_project. rewrite Hp. simpl.
    destruct (p =? 0) eqn:E; [|done]. by apply Z.eqb_eq in E. }
  split; [done|].
  unfold put_farmer. run. unfold select_farmer. rewrite Hf. simpl.
  rewrite Hu. simpl. rewrite (not_admin _ Hrole). simpl.
  rewrite Ht, (select_project_user_unassigned _ _ _ Hout). reflexivity.
Qed.

Lemma update_keys_nonempty b : (length (update_keys b) =? 0)%nat = false.
Proof.
  unfold update_keys. rewrite !length_app. simpl. apply Nat.eqb_neq. lia.
Qed.

(** With the destination assigned, the scope check lets the request through:
    whatever the answer then is, it is not the scope refusal. *)
Lemma put_farmer_admits_destination (req : Request string FarmerBody.t)
    (u : Claims) (d : DB) (existing : FarmerRow) (p : Z) :
  user req = Some u →
  roleName u ≠ "Admin" →
  farmers d !! params req = Some existing →
  target_project (FarmerBody.projectId (body req)) (project_id existing) = Some p →
  assigned d (userId u) p →
  ∀ out, res (put_farmer req (start d)).2 = Some out → json out ≠ out_of_scope.
Proof.
  intros Hu Hrole Hf Ht Hin out.
  unfold put_farmer. run. unfold select_farmer. rewrite Hf. simpl.
  rewrite Hu. simpl. rewrite (not_admin _ Hrole). simpl.
  rewrite Ht, (select_project_user_assigned _ _ _ Hin). simpl.
  rewrite update_keys_nonempty. unfold update_farmer. run.
  destruct (authorizePermission_cases "EDIT_FARMER_RECORDS" req u (λ w, (Ret (), w))
              (start d) Hu) as [->|[->| ->]]; simpl;
    (destruct (farmer_values (body req)) as [e|values]; simpl;
     [unfold farmer_catch; simpl;
      destruct (includes "Access denied" (message e)) eqn:Hdenied
     |rewrite Hf; destruct (farmer_row_ok d _)]);
    simpl; intros [= <-]; try discriminate.
  intros [= Heq]. rewrite Heq in Hdenied. discriminate.
Qed.

(** C7, as the code has it. On PUT /api/farmers/:id by an active identity
    whose verified token carries a role name other than Admin, whatever role
    the identity holds in the store, for a record of the store and a request
    that names a project, the scope check looks up the project that will be
    written, [projectId || currentProjectId], which is the named one, whatever
    project the record is in now: when the identity is not assigned to it,
    the answer is 403 and the store is untouched; when it is, the answer is
    not the scope refusal. *)
Theorem update_scope_checks_destination `{Jwt} (req : Request string FarmerBody.t)
    (token : string) (u : Claims) (usr : UserRow) (d : DB) (existing : FarmerRow) (p : Z) :
  bearer (authorization req) = Some token →
  token ≠ EmptyString →
  jwt_verify token = Some u →
  users d !! userId u = Some usr →
  is_active usr = true →
  activation_status usr = true →
  roleName u ≠ "Admin" →
  farmers d !! params req = Some existing →
  FarmerBody.projectId (body req) = Some p →
  p ≠ 0 →
  target_project (FarmerBody.projectId (body req)) (project_id existing) = Some p
  ∧ (¬ assigned d (userId u) p →
     PUT_farmer req (start d) = (Ret (), answered 403 out_of_scope (start d)))
  ∧ (assigned d (userId u) p →
     ∀ out, res (PUT_farmer req (start d)).2 = Some out → json out ≠ out_of_scope).
Proof.
  intros Hb Hne Hv Hu Hon Hact Hrole Hf Hp Hp0. unfold PUT_farmer.
  rewrite (gate_admits req token u usr) by done.
  assert (target_project (FarmerBody.projectId (body req)) (project_id existing) = Some p)
    as Ht.
  { unfold target_project. rewrite Hp. simpl.
    destruct (p =? 0) eqn:E; [|done]. by apply Z.eqb_eq in E. }
  split; [done|]. split.
  - intros Hout.
    by apply (put_farmer_checks_destination (attach u req) u d existing p).
  - intros Hin.
    by apply (put_farmer_admits_destination (attach u req) u d existing p).
Qed.

Lemma update_scope_checks_destination_witness :
  let req := Seed.request "t-field" "f-1" (Seed.farmer_body None None (Some 2)) in
  target_project (Some 2) (Some 1) = Some 2
  ∧ (¬ assigned Seed.store "u-field" 2 →
     PUT_farmer (H := Seed.jwt) req (start Seed.store)
     = (Ret (), answered 403 out_of_scope (start Seed.store)))
  ∧ (assigned Seed.store "u-field" 2 →
     ∀ out, res (PUT_farmer (H := Seed.jwt) req (start Seed.store)).2 = Some out →
            json out ≠ out_of_scope).
Proof.
  intros req.
  apply (update_scope_checks_destination (H := Seed.jwt) req "t-field"
           (Seed.claims_of "u-field" "femi@fors.org" "User")
           (Seed.account "Femi" "femi@fors.org" 2 true) Seed.store
           (Seed.farmer "Kofi" 1 "u-admin") 2);
    try reflexivity; discriminate.
Defined.

(** C7, as stated, fails: an identity that holds the role User in the store,
    assigned to project 1 only, presents a verified token that still carries
    the role name Admin and moves a farmer into project 2: no membership is
    looked up, the answer is 200 and the record is in project 2. *)
Lemma stale_admin_token_moves_farmer_out_of_scope :
  let out := PUT_farmer (H := Seed.jwt)
               (Seed.request "t-field-as-admin" "f-1" (Seed.farmer_body None None (Some 2)))
               (start Seed.store) in
  jwt_verify (Jwt := Seed.jwt) "t-field-as-admin"
  = Some (Seed.claims_of "u-field" "femi@fors.org" "Admin")
  ∧ (role_id <$> users Seed.store !! "u-field") = Some 2
  ∧ roles Seed.store !! 2 = Some "User"
  ∧ select_user_projects Seed.store "u-field" = [1]
  ∧ (project_id <$> farmers Seed.store !! "f-1") = Some (Some 1)
  ∧ (status <$> res out.2) = Some 200
  ∧ (project_id <$> farmers (db out.2) !! "f-1") = Some (Some 2).
Proof. vm_compute. done. Qed.

(** The current project plays no part in the check: an identity assigned to
    the record's project is refused a move to another project, and an identity
    assigned only to the destination may move a record out of a project it is
    not assigned to. *)
Example scope_check_ignores_current_project :
  let femi := Seed.claims_of "u-field" "femi@fors.org" "User" in
  let move id p := attach femi (Seed.request "t-field" id (Seed.farmer_body None None (Some p))) in
  (status <$> res (put_farmer (move "f-1" 2) (start Seed.store)).2) = Some 403
  ∧ (status <$> res (put_farmer (move "f-2" 1) (start Seed.store)).2) = Some 200
  ∧ (project_id <$> farmers (db (put_farmer (move "f-2" 1) (start Seed.store)).2) !! "f-2")
    = Some (Some 1).
Proof. vm_compute. done. Qed.

(** ** The role name in the token *)

Section RoleClaim.
Context (c1 c2 : Claims).
Hypothesis same_subject : userId c1 = userId c2.



Hypothesis same_bypass : roleName c1 = "Admin" ↔ roleName c2 = "Admin".






End RoleClaim.




(** ** A denied permission inside the farmer handlers *)

(** The handler calls the middleware with an empty continuation and goes on:
    a denial answers 403, the delete runs all the same, and the 200 (and the
    500 of the catch block) then hit the answered response. *)
Lemma denied_delete_still_deletes {B} (req : Request string B) (u : Claims)
    (usr : UserRow) (name : string) (row : FarmerRow) (p : Z) (d : DB) :
  user req = Some u →
  roleName u ≠ "Admin" →
  farmers d !! params req = Some row →
  project_id row = Some p →
  assigned d (userId u) p →
  users d !! userId u = Some usr →
  roles d !! role_id usr = Some name →
  ¬ linked d (role_id usr) "DELETE_FARMER_RECORDS" →
  delete_farmer_route req (start d)
  = (Throw headers_sent,
     answered 403 (denial "DELETE_FARMER_RECORDS")
       (start (with_farmers (delete (params req)) d))).
Proof.
  intros Hu Hrole Hf Hp Hin Husr Hname Hno.
  unfold delete_farmer_route. run. unfold select_farmer. rewrite Hf. simpl.
  rewrite Hu. simpl. rewrite (not_admin _ Hrole). simpl.
  rewrite Hp, (select_project_user_assigned _ _ _ Hin). simpl.
  rewrite (authorizePermission_not_linked "DELETE_FARMER_RECORDS" req u usr name
             (start d) Hu Husr Hname Hno).
  reflexivity.
Qed.

Lemma denied_create_still_inserts {P} (new_id : string) (req : Request P FarmerBody.t)
    (u : Claims) (usr : UserRow) (name : string) (p : Z) (d : DB) (row : FarmerRow) :
  farmer_in (new_farmer (body req) (userId u)) = inr row →
  user req = Some u →
  roleName u ≠ "Admin" →
  truthy_string (FarmerBody.fullName (body req)) = true →
  truthy_number (FarmerBody.farmerTypeId (body req)) = true →
  FarmerBody.projectId (body req) = Some p →
  p ≠ 0 →
  assigned d (userId u) p →
  users d !! userId u = Some usr →
  roles d !! role_id usr = Some name →
  ¬ linked d (role_id usr) "ADD_FARMER_RECORDS" →
  farmers d !! new_id = None →
  farmer_row_ok d row = true →
  post_farmer new_id req (start d)
  = (Throw headers_sent,
     answered 403 (denial "ADD_FARMER_RECORDS")
       (start (with_farmers (insert new_id row) d))).
Proof.
  intros Hrow Hu Hrole Hname Htype Hp Hp0%Z.eqb_neq Hin Husr Hrname Hno Hfree Hok.
  unfold post_farmer. rewrite Hname, Htype, Hp. simpl. rewrite Hp0. simpl. run.
  rewrite Hu. simpl. rewrite (not_admin _ Hrole). simpl.
  rewrite (select_project_user_assigned _ _ _ Hin). simpl.
  rewrite (authorizePermission_not_linked "ADD_FARMER_RECORDS" req u usr name
             (start d) Hu Husr Hrname Hno).
  simpl. unfold insert_farmer. run. rewrite Hrow, Hfree. simpl.
  rewrite Hok. reflexivity.
Qed.

Lemma denied_update_still_updates (req : Request string FarmerBody.t) (u : Claims)
    (usr : UserRow) (name : string) (old : FarmerRow) (p : Z) (d : DB)
    (values : FarmerBody.t) :
  let row :=
    apply_update values (target_project (FarmerBody.projectId (body req)) (project_id old))
      old in
  farmer_values (body req) = inr values →
  user req = Some u →
  roleName u ≠ "Admin" →
  farmers d !! params req = Some old →
  target_project (FarmerBody.projectId (body req)) (project_id old) = Some p →
  assigned d (userId u) p →
  users d !! userId u = Some usr →
  roles d !! role_id usr = Some name →
  ¬ linked d (role_id usr) "EDIT_FARMER_RECORDS" →
  farmer_row_ok d row = true →
  put_farmer req (start d)
  = (Throw headers_sent,
     answered 403 (denial "EDIT_FARMER_RECORDS")
       (start (with_farmers (insert (params req) row) d))).
Proof.
  intros row Hvalues Hu Hrole Hf Ht Hin Husr Hrname Hno Hok.
  unfold put_farmer. run. unfold select_farmer. rewrite Hf. simpl.
  rewrite Hu. simpl. rewrite (not_admin _ Hrole). simpl.
  rewrite Ht, (select_project_user_assigned _ _ _ Hin). simpl.
  rewrite (authorizePermission_not_linked "EDIT_FARMER_RECORDS" req u usr name
             (start d) Hu Husr Hrname Hno).
  simpl. rewrite update_keys_nonempty. unfold update_farmer. run. rewrite Hvalues, Hf.
  subst row. rewrite Ht in Hok |- *. rewrite Hok. reflexivity.
Qed.

(** C5 fails on the code. A user assigned to project 1 whose role lacks the
    three writing permissions is answered 403 on create, update and delete,
    and each time the farmer row is written all the same. *)
Theorem denied_writes_change_the_store :
  let create := POST_farmers (H := Seed.jwt) "f-3"
                  (Seed.request "t-view" ()
                     (Seed.farmer_body (Some "Mara") (Some 1) (Some 1)))
                  (start Seed.store) in
  let update := PUT_farmer (H := Seed.jwt)
                  (Seed.request "t-view" "f-1" (Seed.farmer_body (Some "Renamed") None None))
                  (start Seed.store) in
  let delete := DELETE_farmer (H := Seed.jwt) (Seed.request "t-view" "f-1" ())
                  (start Seed.store) in
  (res create.2 = Some {| status := 403; json := denial "ADD_FARMER_RECORDS" |}
   ∧ farmers Seed.store !! "f-3" = None
   ∧ (full_name <$> farmers (db create.2) !! "f-3") = Some "Mara")
  ∧ (res update.2 = Some {| status := 403; json := denial "EDIT_FARMER_RECORDS" |}
     ∧ (full_name <$> farmers Seed.store !! "f-1") = Some "Kofi"
     ∧ (full_name <$> farmers (db update.2) !! "f-1") = Some "Renamed")
  ∧ (res delete.2 = Some {| status := 403; json := denial "DELETE_FARMER_RECORDS" |}
     ∧ (full_name <$> farmers Seed.store !! "f-1") = Some "Kofi"
     ∧ farmers (db delete.2) !! "f-1" = None).
Proof. vm_compute. done. Qed.

(** ** The one-time code *)

Lemma pretty_N_go_nonempty (x : N) (s : string) :
  s ≠ EmptyString → pretty_N_go x s ≠ EmptyString.
Proof.
  revert s. induction (N.lt_wf_0 x) as [x _ IH]. intros s Hs.
  assert (x = 0 ∨ 0 < x)%N as [->|Hpos] by lia.
  - by rewrite pretty_N_go_0.
  - rewrite pretty_N_go_step by done. apply IH; [|done].
    apply N.div_lt; lia.
Qed.

Lemma generateOTP_nonempty draw : generateOTP draw ≠ EmptyString.
Proof.
  unfold generateOTP, pretty, pretty_N.
  destruct (decide (100000 + draw = 0)%N) as [|_]; [lia|].
  rewrite pretty_N_go_step by lia. by apply pretty_N_go_nonempty.
Qed.

Lemma generateOTP_inj draw1 draw2 : generateOTP draw1 = generateOTP draw2 → draw1 = draw2.
Proof. unfold generateOTP. intros Heq%(inj pretty). lia. Qed.

Lemma select_user_by_email_registered d id u :
  registered d id u → select_user_by_email d (email u) = ok (id, u).
Proof.
  intros [Hu Huniq]. unfold select_user_by_email.
  assert (filter (λ kv : string * UserRow, email kv.2 = email u) (users d)
          = {[ id := u ]}) as ->.
  { apply map_eq. intros i. apply option_eq. intros x.
    rewrite map_lookup_filter_Some, lookup_singleton_Some. simpl. split.
    - intros [Hi He]. pose proof (Huniq _ _ Hi He) as ->. split; congruence.
    - intros [<- <-]. done. }
  by rewrite map_to_list_singleton.
Qed.

Lemma registered_pending v d id u :
  registered d id u → registered (pending v id d) id (set_otp v u).
Proof.
  intros [Hu Huniq]. split.
  - unfold pending. simpl. by rewrite lookup_alter_eq, Hu.
  - intros id' u'. unfold pending. simpl.
    destruct (decide (id = id')) as [<-|Hne]; [done|].
    rewrite lookup_alter_ne by done. intros Hu' He. by eapply Huniq.
Qed.

Section Otp.
Context `{Jwt} `{Bcrypt}.

Lemma login_issues d id u password draw :
  registered d id u →
  email u ≠ EmptyString →
  password ≠ EmptyString →
  bcrypt_compare password (password_hash u) = true →
  activation_status u = true →
  is_active u = true →
  login draw (login_request (email u) password) (start d)
  = (Ret (),
     {| db := pending (Some (generateOTP draw)) id d;
        res := Some {| status := 200;
                       json := Message "OTP sent to your email. Please verify to complete login." |};
        log := [Stored id (Some (generateOTP draw)); Mail (email u) (generateOTP draw)] |}).
Proof.
  intros Hreg He%String.eqb_neq Hp%String.eqb_neq Hmatch Hact Hon.
  unfold login. simpl. rewrite He, Hp. simpl. run.
  rewrite (select_user_by_email_registered _ _ _ Hreg). simpl.
  rewrite Hmatch, Hact, Hon. reflexivity.
Qed.

Lemma verify_otp_mismatch d id u code :
  registered d id u →
  email u ≠ EmptyString →
  code ≠ EmptyString →
  otp u ≠ Some code →
  verify_otp (verify_request (email u) code) (start d)
  = (Ret (), answered 400 (Message "Invalid OTP.") (start d)).
Proof.
  intros Hreg He%String.eqb_neq Hc%String.eqb_neq Hne.
  unfold verify_otp. simpl. rewrite He, Hc. simpl. run.
  rewrite (select_user_by_email_registered _ _ _ Hreg). simpl.
  by rewrite bool_decide_eq_false_2.
Qed.

Lemma verify_otp_match d id u name code :
  registered d id u →
  roles d !! role_id u = Some name →
  email u ≠ EmptyString →
  code ≠ EmptyString →
  otp u = Some code →
  let payload := {| userId := id; claim_email := email u; roleName := name |} in
  verify_otp (verify_request (email u) code) (start d)
  = (Ret (),
     {| db := pending None id d;
        res := Some {| status := 200;
                       json := TokenResult "OTP verified successfully." (jwt_sign payload)
                                 payload (user_full_name u) |};
        log := [Stored id None; Signed payload] |}).
Proof.
  intros Hreg Hrole He%String.eqb_neq Hc%String.eqb_neq Hotp payload.
  unfold verify_otp. simpl. rewrite He, Hc. simpl. run.
  rewrite (select_user_by_email_registered _ _ _ Hreg). simpl.
  rewrite bool_decide_eq_true_2 by done. simpl.
  unfold embed_role. rewrite Hrole. reflexivity.
Qed.
End Otp.

(** C9, as the code has it. The pending code is one slot per user. After a
    second login the code of the second login verifies, and the code of the
    first is answered "Invalid OTP." exactly when the two draws differ: the
    same draw gives the same code, which is then the current one and is
    answered 200. A successful verification sets the slot to null before the
    token is signed, so a second verification with the same code answers
    "Invalid OTP.". *)
Theorem otp_superseded_and_single_use `{Jwt} `{Bcrypt} (d : DB) (id : string)
    (u : UserRow) (name password : string) (draw1 draw2 : N) :
  registered d id u →
  roles d !! role_id u = Some name →
  email u ≠ EmptyString →
  password ≠ EmptyString →
  bcrypt_compare password (password_hash u) = true →
  activation_status u = true →
  is_active u = true →
  let old := generateOTP draw1 in
  let new := generateOTP draw2 in
  let payload := {| userId := id; claim_email := email u; roleName := name |} in
  let w1 := (login draw1 (login_request (email u) password) (start d)).2 in
  let w2 := (login draw2 (login_request (email u) password) (start (db w1))).2 in
  let stale := verify_otp (verify_request (email u) old) (start (db w2)) in
  let first := verify_otp (verify_request (email u) new) (start (db w2)) in
  let replay := verify_otp (verify_request (email u) new) (start (db first.2)) in
  ((status <$> res w1) = Some 200 ∧ (otp <$> users (db w1) !! id) = Some (Some old))
  ∧ ((status <$> res w2) = Some 200 ∧ (otp <$> users (db w2) !! id) = Some (Some new))
  ∧ (draw1 ≠ draw2 →
     stale = (Ret (), answered 400 (Message "Invalid OTP.") (start (db w2))))
  ∧ (draw1 = draw2 → (status <$> res stale.2) = Some 200)
  ∧ (first.1 = Ret ()
     ∧ res first.2
       = Some {| status := 200;
                 json := TokenResult "OTP verified successfully." (jwt_sign payload)
                           payload (user_full_name u) |}
     ∧ log first.2 = [Stored id None; Signed payload]
     ∧ (otp <$> users (db first.2) !! id) = Some None)
  ∧ replay = (Ret (), answered 400 (Message "Invalid OTP.") (start (db first.2))).
Proof.
  intros Hreg Hrole He Hp Hmatch Hact Hon old new payload w1 w2 stale first replay.
  pose proof (generateOTP_nonempty draw1) as Hold.
  pose proof (generateOTP_nonempty draw2) as Hnew.
  (* first login *)
  pose proof (login_issues d id u password draw1 Hreg He Hp Hmatch Hact Hon) as E1.
  assert (db w1 = pending (Some old) id d ∧ (status <$> res w1) = Some 200) as [D1 S1].
  { subst w1. by rewrite E1. }
  pose proof (registered_pending (Some old) _ _ _ Hreg) as Hreg1.
  (* second login *)
  pose proof (login_issues (pending (Some old) id d) id (set_otp (Some old) u) password
                draw2 Hreg1 He Hp Hmatch Hact Hon) as E2.
  simpl in E2.
  assert (db w2 = pending (Some new) id (pending (Some old) id d)
          ∧ (status <$> res w2) = Some 200) as [D2 S2].
  { subst w2. rewrite D1. by rewrite E2. }
  pose proof (registered_pending (Some new) _ _ _ Hreg1) as Hreg2.
  set (u2 := set_otp (Some new) (set_otp (Some old) u)) in *.
  (* the code of the second login *)
  pose proof (verify_otp_match _ id u2 name new Hreg2 Hrole He Hnew eq_refl) as E4.
  simpl in E4.
  assert (first = (Ret (),
                   {| db := pending None id (db w2);
                      res := Some {| status := 200;
                                     json := TokenResult "OTP verified successfully."
                                               (jwt_sign payload) payload (user_full_name u) |};
                      log := [Stored id None; Signed payload] |})) as F.
  { subst first. rewrite D2. exact E4. }
  pose proof (registered_pending None _ _ _ Hreg2) as Hreg3.
  assert (otp (set_otp None u2) ≠ Some new) as Hgone by done.
  pose proof (verify_otp_mismatch _ id (set_otp None u2) new Hreg3 He Hnew Hgone) as E5.
  simpl in E5.
  repeat split.
  - exact S1.
  - rewrite D1. destruct Hreg1 as [-> _]. reflexivity.
  - exact S2.
  - rewrite D2. destruct Hreg2 as [-> _]. reflexivity.
  - (* the code of the first login, from another draw *)
    intros Hdraw.
    assert (otp u2 ≠ Some old) as Hstale.
    { simpl. intros [= Heq]. by apply generateOTP_inj in Heq. }
    subst stale. rewrite D2.
    exact (verify_otp_mismatch _ id u2 old Hreg2 He Hold Hstale).
  - (* the code of the first login, from the same draw *)
    intros Hdraw. subst stale old. rewrite Hdraw. fold new. fold first.
    by rewrite F.
  - by rewrite F.
  - by rewrite F.
  - by rewrite F.
  - rewrite F. cbn [snd db]. rewrite D2. destruct Hreg3 as [-> _]. reflexivity.
  - subst replay. rewrite F. cbn [snd db]. rewrite D2. exact E5.
Qed.

Lemma otp_superseded_and_single_use_witness :
  let d := Seed.store in
  let u := Seed.account "Femi" "femi@fors.org" 2 true in
  let old := generateOTP 23456 in
  let new := generateOTP 777 in
  let payload := {| userId := "u-field"; claim_email := email u; roleName := "User" |} in
  let w1 := (login (H := Seed.bcrypt) 23456 (login_request (email u) "Femi") (start d)).2 in
  let w2 := (login (H := Seed.bcrypt) 777 (login_request (email u) "Femi")
               (start (db w1))).2 in
  let stale := verify_otp (H := Seed.jwt) (verify_request (email u) old) (start (db w2)) in
  let first := verify_otp (H := Seed.jwt) (verify_request (email u) new) (start (db w2)) in
  let replay := verify_otp (H := Seed.jwt) (verify_request (email u) new)
                  (start (db first.2)) in
  ((status <$> res w1) = Some 200 ∧ (otp <$> users (db w1) !! "u-field") = Some (Some old))
  ∧ ((status <$> res w2) = Some 200
     ∧ (otp <$> users (db w2) !! "u-field") = Some (Some new))
  ∧ ((23456 ≠ 777)%N →
     stale = (Ret (), answered 400 (Message "Invalid OTP.") (start (db w2))))
  ∧ ((23456 = 777)%N → (status <$> res stale.2) = Some 200)
  ∧ (first.1 = Ret ()
     ∧ res first.2
       = Some {| status := 200;
                 json := TokenResult "OTP verified successfully."
                           (jwt_sign (Jwt := Seed.jwt) payload)
                           payload (user_full_name u) |}
     ∧ log first.2 = [Stored "u-field" None; Signed payload]
     ∧ (otp <$> users (db first.2) !! "u-field") = Some None)
  ∧ replay = (Ret (), answered 400 (Message "Invalid OTP.") (start (db first.2))).
Proof.
  intros d u.
  apply (otp_superseded_and_single_use (H := Seed.jwt) (H0 := Seed.bcrypt)
           d "u-field" u "User" "Femi" 23456 777);
    try reflexivity; try discriminate.
  split; [reflexivity|].
  intros id' u' Hu' He.
  unfold d, Seed.store in Hu'. simpl in Hu'.
  repeat (apply lookup_insert_Some in Hu' as [[<- <-]|[_ Hu']]; [done || discriminate|]).
  apply lookup_singleton_Some in Hu' as [<- <-]. discriminate.
Defined.

(** C9, as stated, fails: the second login draws the code of the first
    again, and the code of the first login, verified after the reissue, is
    answered 200 with a token. *)
Lemma repeated_draw_keeps_old_code_valid :
  let mail := "femi@fors.org" in
  let old := generateOTP 23456 in
  let w1 := (login (H := Seed.bcrypt) 23456 (login_request mail "Femi")
               (start Seed.store)).2 in
  let w2 := (login (H := Seed.bcrypt) 23456 (login_request mail "Femi")
               (start (db w1))).2 in
  let stale := verify_otp (H := Seed.jwt) (verify_request mail old) (start (db w2)) in
  ((status <$> res w1) = Some 200
   ∧ (otp <$> users (db w1) !! "u-field") = Some (Some "123456"))
  ∧ ((status <$> res w2) = Some 200
     ∧ (otp <$> users (db w2) !! "u-field") = Some (Some "123456"))
  ∧ old = "123456"
  ∧ (status <$> res stale.2) = Some 200
  ∧ log stale.2
    = [Stored "u-field" None; Signed (Seed.claims_of "u-field" "femi@fors.org" "User")].
Proof. vm_compute. done. Qed.

(** ** Replacing the permissions of a role *)

Lemma select_other_roles_none d name id :
  (∀ id', roles d !! id' = Some name → id' = id) → select_other_roles d name id = [].
Proof.
  intros Huniq. unfold select_other_roles.
  assert (filter (λ kv : Z * string, kv.2 = name ∧ kv.1 ≠ id) (roles d) = ∅) as ->.
  { apply map_eq. intros i. rewrite lookup_empty. apply map_lookup_filter_None_2.
    destruct (roles d !! i) as [n|] eqn:Hi; [right|by left].
    intros n' [= <-] [Hn Hne]. simpl in *. subst n. by apply Hne, Huniq. }
  apply map_to_list_empty.
Qed.







(** * Further properties of the code *)

(** ** The middlewares *)

(** X1. The gate runs the rest of the chain only for a non-empty bearer
    token that the codec verifies and whose subject is a row of the store that
    is active and activated, and then on the request with the payload
    attached; in every other case it answers 401 or 403 by itself, whatever
    the rest of the chain is, and leaves the store and the log untouched. *)
Theorem gate_admits_or_answers `{Jwt} {P B} (req : Request P B) (d : DB) :
  (∃ token payload usr,
     bearer (authorization req) = Some token
     ∧ token ≠ EmptyString
     ∧ jwt_verify token = Some payload
     ∧ users d !! userId payload = Some usr
     ∧ is_active usr = true
     ∧ activation_status usr = true
     ∧ ∀ next, authenticateToken req next (start d) = next (attach payload req) (start d))
  ∨ (∃ code msg,
       (code = 401 ∨ code = 403)
       ∧ ∀ next, authenticateToken req next (start d)
                 = (Ret (), answered code (Message msg) (start d))).
Proof.
  destruct (bearer (authorization req)) as [token|] eqn:Hb.
  2:{ right. exists 401, "Authentication token required.". split; [by left|].
      intros next. unfold authenticateToken. by rewrite Hb. }
  destruct (decide (token = EmptyString)) as [->|Hne].
  { right. exists 401, "Authentication token required.". split; [by left|].
    intros next. unfold authenticateToken. by rewrite Hb. }
  destruct (jwt_verify token) as [payload|] eqn:Hv.
  2:{ right. exists 403, "Invalid or expired token.". split; [by right|].
      intros next. rewrite (gate_verifies req token) by done. by rewrite Hv. }
  destruct (users d !! userId payload) as [usr|] eqn:Hu.
  2:{ right. exists 403, "User is inactive or not found.". split; [by right|].
      intros next. rewrite (gate_verifies req token) by done. rewrite Hv.
      unfold select_user_status. simpl. by rewrite Hu. }
  destruct (is_active usr) eqn:Hon, (activation_status usr) eqn:Hact.
  - left. exists token, payload, usr. repeat split; try done.
    intros next. by apply (gate_admits req token payload usr).
  - right. exists 403, "User is inactive or not found.". split; [by right|].
    intros next. rewrite (gate_verifies req token) by done. rewrite Hv.
    unfold select_user_status. simpl. rewrite Hu. simpl. by rewrite Hon, Hact.
  - right. exists 403, "User is inactive or not found.". split; [by right|].
    intros next. rewrite (gate_verifies req token) by done. rewrite Hv.
    unfold select_user_status. simpl. rewrite Hu. simpl. by rewrite Hon.
  - right. exists 403, "User is inactive or not found.". split; [by right|].
    intros next. rewrite (gate_verifies req token) by done. rewrite Hv.
    unfold select_user_status. simpl. rewrite Hu. simpl. by rewrite Hon.
Qed.

(** X2. [authorizeRole] reads the role from the store: for a subject of the
    store it runs the rest of the chain if and only if the name of the role
    row of the subject equals the required name, and answers 403 otherwise;
    the role name in the token payload plays no part. *)
Theorem authorizeRole_decides_by_store {P B} (required : string) (req : Request P B)
    (c : Claims) (u : UserRow) (name : string) (w : World) :
  user req = Some c →
  users (db w) !! userId c = Some u →
  roles (db w) !! role_id u = Some name →
  (passes (authorizeRole required req) w ↔ name = required)
  ∧ (name ≠ required →
     rejects (authorizeRole required req) 403
       (Message ("Access denied. Requires " +:+ required +:+ " role.")) w).
Proof.
  intros Hc Hu Hrole.
  assert (∀ next, authorizeRole required req next w
                  = if String.eqb name required then next w
                    else send 403 (Message ("Access denied. Requires " +:+ required
                                            +:+ " role.")) w) as Hrun.
  { intros next. unfold authorizeRole. run. rewrite Hc. simpl.
    unfold select_user_role. rewrite Hu. simpl. unfold embed_role. rewrite Hrole.
    simpl. by destruct (String.eqb name required). }
  split; [split|].
  - intros Hp. destruct (String.eqb name required) eqn:E; [by apply String.eqb_eq|].
    exfalso. eapply passes_rejects_exclusive; [exact Hp|].
    intros next. rewrite Hrun. reflexivity.
  - intros <- next. rewrite Hrun. by rewrite String.eqb_refl.
  - intros Hne%String.eqb_neq next. rewrite Hrun. by rewrite Hne.
Qed.

Lemma authorizeRole_decides_by_store_witness :
  let req := attach (Seed.claims_of "u-field" "femi@fors.org" "Admin")
               (Seed.request "t-field-as-admin" () ()) in
  let w := start Seed.store in
  (passes (authorizeRole "Admin" req) w ↔ "User" = "Admin")
  ∧ ("User" ≠ "Admin" →
     rejects (authorizeRole "Admin" req) 403
       (Message ("Access denied. Requires " +:+ "Admin" +:+ " role.")) w).
Proof.
  intros req w.
  apply (authorizeRole_decides_by_store "Admin" req
           (Seed.claims_of "u-field" "femi@fors.org" "Admin")
           (Seed.account "Femi" "femi@fors.org" 2 true) "User" w);
    reflexivity.
Defined.

(** X3. A route mounted behind the gate and [authorizePermission(code)]
    reaches its handler, with the payload attached and the store as it was,
    when a link row of the subject's role leads to the code; when none does,
    the answer is 403 with the denial message and the handler is not run. *)
Theorem guarded_route_runs_handler_iff_linked `{Jwt} {P B} (code : string)
    (handler : Request P B → M unit) (req : Request P B) (token : string)
    (c : Claims) (usr : UserRow) (name : string) (d : DB) :
  bearer (authorization req) = Some token →
  token ≠ EmptyString →
  jwt_verify token = Some c →
  users d !! userId c = Some usr →
  is_active usr = true →
  activation_status usr = true →
  roles d !! role_id usr = Some name →
  (linked d (role_id usr) code →
   guarded code handler req (start d) = handler (attach c req) (start d))
  ∧ (¬ linked d (role_id usr) code →
     guarded code handler req (start d) = (Ret (), answered 403 (denial code) (start d))).
Proof.
  intros Hb Hne Hv Hu Hon Hact Hrole. unfold guarded.
  rewrite (gate_admits req token c usr) by done. split.
  - intros Hl. by apply (authorizePermission_linked code (attach c req) c usr name).
  - intros Hl.
    by rewrite (authorizePermission_not_linked code (attach c req) c usr name (start d)).
Qed.

Lemma guarded_route_runs_handler_iff_linked_witness :
  let req := Seed.request "t-field" 3 () in
  (linked Seed.store 2 "DELETE_ROLES" →
   guarded (H := Seed.jwt) "DELETE_ROLES" delete_role_route req (start Seed.store)
   = delete_role_route (attach (Seed.claims_of "u-field" "femi@fors.org" "User") req)
       (start Seed.store))
  ∧ (¬ linked Seed.store 2 "DELETE_ROLES" →
     guarded (H := Seed.jwt) "DELETE_ROLES" delete_role_route req (start Seed.store)
     = (Ret (), answered 403 (denial "DELETE_ROLES") (start Seed.store))).
Proof.
  intros req.
  apply (guarded_route_runs_handler_iff_linked (H := Seed.jwt) "DELETE_ROLES"
           delete_role_route req "t-field"
           (Seed.claims_of "u-field" "femi@fors.org" "User")
           (Seed.account "Femi" "femi@fors.org" 2 true) "User" Seed.store);
    try reflexivity; discriminate.
Defined.

(** X4. A subject without a row in the store, or whose role row is
    missing, is rejected by [authorizePermission] with 403 "User permissions
    not found or access denied.", for every code. *)
Theorem unknown_subject_has_no_permission {P B} (code : string) (req : Request P B)
    (c : Claims) (w : World) :
  user req = Some c →
  (users (db w) !! userId c = None
   ∨ ∃ u, users (db w) !! userId c = Some u ∧ roles (db w) !! role_id u = None) →
  rejects (authorizePermission code req) 403
    (Message "User permissions not found or access denied.") w.
Proof. intros Hc Hu. by apply (authorizePermission_unknown code req c w). Qed.

Lemma unknown_subject_has_no_permission_witness :
  rejects
    (authorizePermission "VIEW_ROLES"
       (attach (Seed.claims_of "u-gone" "gone@fors.org" "User") (Seed.request "t-gone" () ())))
    403 (Message "User permissions not found or access denied.") (start Seed.store).
Proof.
  apply (unknown_subject_has_no_permission "VIEW_ROLES" _
           (Seed.claims_of "u-gone" "gone@fors.org" "User"));
    [reflexivity | left; reflexivity].
Defined.

(** ** The farmer routes *)

(** X5. GET /api/farmers consults no permission: the outcome and the
    answer are the same on two stores that agree on the users, the
    assignments and the farmers, whatever their roles, permissions and links
    are. *)
Theorem farmer_list_consults_no_permission `{Jwt} {P B} (req : Request P B) (d d' : DB) :
  users d = users d' →
  project_users d = project_users d' →
  farmers d = farmers d' →
  (GET_farmers req (start d)).1 = (GET_farmers req (start d')).1
  ∧ res (GET_farmers req (start d)).2 = res (GET_farmers req (start d')).2.
Proof.
  destruct d, d'. simpl. intros -> -> ->.
  unfold GET_farmers, authenticateToken, get_farmers, select_user_status,
    select_user_projects, select_farmers, server_error, send.
  run.
  repeat case_match; simpl in *; simplify_eq; done || congruence.
Qed.

Lemma farmer_list_consults_no_permission_witness :
  let req := Seed.request "t-view" () () in
  let d' := with_role_permissions (λ _, ∅) Seed.store in
  (GET_farmers (H := Seed.jwt) req (start Seed.store)).1
  = (GET_farmers (H := Seed.jwt) req (start d')).1
  ∧ res (GET_farmers (H := Seed.jwt) req (start Seed.store)).2
    = res (GET_farmers (H := Seed.jwt) req (start d')).2.
Proof.
  intros req d'.
  apply (farmer_list_consults_no_permission (H := Seed.jwt) req Seed.store d');
    reflexivity.
Defined.

(** X6. For a payload with the role name Admin, the farmer list is every
    farmer of the store, also those without a project and those of projects
    the subject is not assigned to. *)
Theorem admin_claim_lists_every_farmer {P B} (req : Request P B) (u : Claims) (d : DB) :
  user req = Some u →
  roleName u = "Admin" →
  ∃ rows,
    get_farmers req (start d) = (Ret (), answered 200 (FarmerList rows) (start d))
    ∧ ∀ id row, (id, row) ∈ rows ↔ farmers d !! id = Some row.
Proof.
  intros Hu Hrole. exists (map_to_list (farmers d)). split.
  - unfold get_farmers. run. rewrite Hu. simpl. unfold is_admin. rewrite Hrole.
    reflexivity.
  - intros id row. apply elem_of_map_to_list.
Qed.

Lemma admin_claim_lists_every_farmer_witness :
  ∃ rows,
    get_farmers (attach (Seed.claims_of "u-admin" "ada@fors.org" "Admin")
                   (Seed.request "t-admin" () ()))
      (start Seed.store)
    = (Ret (), answered 200 (FarmerList rows) (start Seed.store))
    ∧ ∀ id row, (id, row) ∈ rows ↔ farmers Seed.store !! id = Some row.
Proof.
  apply (admin_claim_lists_every_farmer _ (Seed.claims_of "u-admin" "ada@fors.org" "Admin"));
    reflexivity.
Defined.

(** X7. GET /api/farmers/:id behind the gate, for a payload with a role
    name other than Admin: an id that is not in the store is answered 500 (the
    error of [.single()] is thrown, the 404 branch is never reached); a farmer
    of a project the subject is assigned to is answered 200 with the row; a
    farmer of another project is answered 403; a farmer without a project is
    answered 500. The store is untouched in every case. *)
Theorem farmer_read_by_id {B} (req : Request string B) (u : Claims) (d : DB) :
  user req = Some u →
  roleName u ≠ "Admin" →
  let id := params req in
  (farmers d !! id = None →
   get_farmer req (start d)
   = (Ret (),
      answered 500
        (ServerError "Server error." "JSON object requested, multiple (or no) rows returned")
        (start d)))
  ∧ (∀ row, farmers d !! id = Some row →
       match project_id row with
       | None =>
           get_farmer req (start d)
           = (Ret (), answered 500 (ServerError "Server error."
                                      "Cannot read properties of null (reading 'id')") (start d))
       | Some p =>
           (assigned d (userId u) p →
            get_farmer req (start d) = (Ret (), answered 200 (FarmerOne (id, row)) (start d)))
           ∧ (¬ assigned d (userId u) p →
              get_farmer req (start d)
              = (Ret (), answered 403 (Message "Access denied to this farmer record.")
                           (start d)))
       end).
Proof.
  intros Hu Hrole id. subst id. split.
  - intros Hnone. unfold get_farmer. run. unfold select_farmer. by rewrite Hnone.
  - intros row Hrow. destruct (project_id row) as [p|] eqn:Hp; [split; intros Hin|].
    + unfold get_farmer. run. unfold select_farmer. rewrite Hrow. simpl.
      rewrite Hu. simpl. rewrite (not_admin _ Hrole). simpl.
      by rewrite Hp, (select_project_user_assigned _ _ _ Hin).
    + unfold get_farmer. run. unfold select_farmer. rewrite Hrow. simpl.
      rewrite Hu. simpl. rewrite (not_admin _ Hrole). simpl.
      by rewrite Hp, (select_project_user_unassigned _ _ _ Hin).
    + unfold get_farmer. run. unfold select_farmer. rewrite Hrow. simpl.
      rewrite Hu. simpl. rewrite (not_admin _ Hrole). simpl.
      by rewrite Hp.
Qed.

Lemma farmer_read_by_id_witness :
  let req := attach (Seed.claims_of "u-field" "femi@fors.org" "User")
               (Seed.request "t-field" "f-9" ()) in
  (farmers Seed.store !! "f-9" = None →
   get_farmer req (start Seed.store)
   = (Ret (),
      answered 500
        (ServerError "Server error." "JSON object requested, multiple (or no) rows returned")
        (start Seed.store)))
  ∧ (∀ row, farmers Seed.store !! "f-9" = Some row →
       match project_id row with
       | None =>
           get_farmer req (start Seed.store)
           = (Ret (), answered 500 (ServerError "Server error."
                                      "Cannot read properties of null (reading 'id')") (start Seed.store))
       | Some p =>
           (assigned Seed.store "u-field" p →
            get_farmer req (start Seed.store)
            = (Ret (), answered 200 (FarmerOne ("f-9", row)) (start Seed.store)))
           ∧ (¬ assigned Seed.store "u-field" p →
              get_farmer req (start Seed.store)
              = (Ret (), answered 403 (Message "Access denied to this farmer record.")
                           (start Seed.store)))
       end).
Proof.
  intros req.
  apply (farmer_read_by_id req (Seed.claims_of "u-field" "femi@fors.org" "User") Seed.store);
    [reflexivity | discriminate].
Defined.

Example farmer_read_by_id_examples :
  let read id :=
    res (get_farmer (attach (Seed.claims_of "u-field" "femi@fors.org" "User")
                       (Seed.request "t-field" id ())) (start Seed.store)).2 in
  (status <$> read "f-1") = Some 200
  ∧ (status <$> read "f-2") = Some 403
  ∧ (status <$> read "f-9") = Some 500.
Proof. vm_compute. done. Qed.

(** X8. POST /api/farmers behind the gate, for a payload with a role name
    other than Admin and a body with a name, a type and a project: when the
    subject is not assigned to the named project the answer is 403, before
    any permission is looked up, and the store is untouched. *)
Theorem create_out_of_scope_is_refused {P} (new_id : string)
    (req : Request P FarmerBody.t) (u : Claims) (p : Z) (d : DB) :
  user req = Some u →
  roleName u ≠ "Admin" →
  truthy_string (FarmerBody.fullName (body req)) = true →
  truthy_number (FarmerBody.farmerTypeId (body req)) = true →
  FarmerBody.projectId (body req) = Some p →
  p ≠ 0 →
  ¬ assigned d (userId u) p →
  post_farmer new_id req (start d)
  = (Ret (),
     answered 403 (Message "You can only add farmers to projects you are assigned to.")
       (start d)).
Proof.
  intros Hu Hrole Hname Htype Hp Hp0%Z.eqb_neq Hout.
  unfold post_farmer. rewrite Hname, Htype, Hp. simpl. rewrite Hp0. simpl. run.
  rewrite Hu. simpl. rewrite (not_admin _ Hrole). simpl.
  by rewrite (select_project_user_unassigned _ _ _ Hout).
Qed.

Lemma create_out_of_scope_is_refused_witness :
  post_farmer "f-3"
    (attach (Seed.claims_of "u-field" "femi@fors.org" "User")
       (Seed.request "t-field" () (Seed.farmer_body (Some "Mara") (Some 1) (Some 2))))
    (start Seed.store)
  = (Ret (),
     answered 403 (Message "You can only add farmers to projects you are assigned to.")
       (start Seed.store)).
Proof.
  apply (create_out_of_scope_is_refused "f-3" _
           (Seed.claims_of "u-field" "femi@fors.org" "User") 2);
    try reflexivity; discriminate.
Defined.

(** The store reads the three references of a row as they are. *)
Lemma farmer_in_references (row stored : FarmerRow) :
  farmer_in row = inr stored →
  farmer_type_id stored = farmer_type_id row
  ∧ project_id stored = project_id row
  ∧ added_by_user_id stored = added_by_user_id row.
Proof.
  unfold farmer_in, mbind, Cast_bind, mret, Cast_ret.
  repeat case_match; intros [= <-]; done.
Qed.

(** X9. A create that is in scope and permitted: for a payload with a role
    name other than Admin, a subject assigned to the named project whose role
    is linked to ADD_FARMER_RECORDS, a free identifier and a body whose values
    fit their columns (the store reads them into the row [row]) and whose
    type and project exist, the answer is 201 with the row as the store holds
    it; the row is stored under the new identifier with the subject as
    [added_by_user_id] and the named project, the other farmers are as
    before, and the subject then reads it back with GET /api/farmers/:id. *)
Theorem permitted_create_stores_and_reads_back {P} (new_id : string)
    (req : Request P FarmerBody.t) (u : Claims) (usr : UserRow) (name : string)
    (p : Z) (d : DB) (row : FarmerRow) :
  let d' := with_farmers (insert new_id row) d in
  farmer_in (new_farmer (body req) (userId u)) = inr row →
  user req = Some u →
  roleName u ≠ "Admin" →
  truthy_string (FarmerBody.fullName (body req)) = true →
  truthy_number (FarmerBody.farmerTypeId (body req)) = true →
  FarmerBody.projectId (body req) = Some p →
  p ≠ 0 →
  assigned d (userId u) p →
  users d !! userId u = Some usr →
  roles d !! role_id usr = Some name →
  linked d (role_id usr) "ADD_FARMER_RECORDS" →
  farmers d !! new_id = None →
  farmer_row_ok d row = true →
  post_farmer new_id req (start d)
  = (Ret (), answered 201 (FarmerResult "Farmer record created successfully." (new_id, row))
               (start d'))
  ∧ added_by_user_id row = Some (userId u)
  ∧ project_id row = Some p
  ∧ (∀ id, id ≠ new_id → farmers d' !! id = farmers d !! id)
  ∧ get_farmer
      {| authorization := authorization req; user := Some u; params := new_id; body := () |}
      (start d')
    = (Ret (), answered 200 (FarmerOne (new_id, row)) (start d')).
Proof.
  intros d' Hrow Hu Hrole Hname Htype Hp Hp0 Hin Husr Hrname Hl Hfree Hok.
  destruct (farmer_in_references _ _ Hrow) as (_ & Hproject & Hby).
  simpl in Hproject, Hby. rewrite Hp in Hproject.
  split; [|split; [done|split; [done|split]]].
  - apply Z.eqb_neq in Hp0.
    unfold post_farmer. rewrite Hname, Htype, Hp. simpl. rewrite Hp0. simpl. run.
    rewrite Hu. simpl. rewrite (not_admin _ Hrole). simpl.
    rewrite (select_project_user_assigned _ _ _ Hin). simpl.
    rewrite (authorizePermission_linked "ADD_FARMER_RECORDS" req u usr name
               (start d) Hu Husr Hrname Hl).
    simpl. unfold insert_farmer. run. rewrite Hrow, Hfree. simpl.
    rewrite Hok. reflexivity.
  - intros id Hne. unfold d'. simpl. by rewrite lookup_insert_ne.
  - assert (farmers d' !! new_id = Some row) as Hnew by apply lookup_insert_eq.
    assert (assigned d' (userId u) p) as Hin' by done.
    clearbody d'.
    unfold get_farmer. run. unfold select_farmer. rewrite Hnew. simpl.
    rewrite (not_admin _ Hrole). simpl.
    by rewrite Hproject, (select_project_user_assigned _ _ _ Hin').
Qed.

Lemma permitted_create_stores_and_reads_back_witness :
  let req := attach (Seed.claims_of "u-field" "femi@fors.org" "User")
               (Seed.request "t-field" () surveyed) in
  let row := surveyed_row "u-field" in
  let d' := with_farmers (insert "f-3" row) Seed.store in
  post_farmer "f-3" req (start Seed.store)
  = (Ret (), answered 201 (FarmerResult "Farmer record created successfully." ("f-3", row))
               (start d'))
  ∧ added_by_user_id row = Some "u-field"
  ∧ project_id row = Some 1
  ∧ (∀ id, id ≠ "f-3" → farmers d' !! id = farmers Seed.store !! id)
  ∧ get_farmer
      {| authorization := authorization req;
         user := Some (Seed.claims_of "u-field" "femi@fors.org" "User");
         params := "f-3"; body := () |}
      (start d')
    = (Ret (), answered 200 (FarmerOne ("f-3", row)) (start d')).
Proof.
  intros req row d'.
  apply (permitted_create_stores_and_reads_back "f-3" req
           (Seed.claims_of "u-field" "femi@fors.org" "User")
           (Seed.account "Femi" "femi@fors.org" 2 true) "User" 1 Seed.store row);
    try reflexivity; try discriminate.
  exists 19, {| permission_name := "Add Farmer Records";
                permission_code := "ADD_FARMER_RECORDS" |}.
  repeat split.
Defined.

(** X10. A payload with the role name Admin needs CREATE_FARMER_RECORDS to
    create a farmer, not ADD_FARMER_RECORDS: on a store with no permission of
    that code (the list of README.md has none) every such create is answered
    403 with the denial of CREATE_FARMER_RECORDS. *)
Theorem admin_create_needs_create_code {P} (new_id : string)
    (req : Request P FarmerBody.t) (u : Claims) (usr : UserRow) (name : string) (d : DB) :
  user req = Some u →
  roleName u = "Admin" →
  truthy_string (FarmerBody.fullName (body req)) = true →
  truthy_number (FarmerBody.farmerTypeId (body req)) = true →
  truthy_number (FarmerBody.projectId (body req)) = true →
  users d !! userId u = Some usr →
  roles d !! role_id usr = Some name →
  (∀ pid p, permissions d !! pid = Some p → permission_code p ≠ "CREATE_FARMER_RECORDS") →
  res (post_farmer new_id req (start d)).2
  = Some {| status := 403; json := denial "CREATE_FARMER_RECORDS" |}.
Proof.
  intros Hu Hrole Hname Htype Hproject Husr Hrname Hnone.
  assert (¬ linked d (role_id usr) "CREATE_FARMER_RECORDS") as Hno.
  { intros (pid & p & _ & Hp & Hcode). by apply (Hnone pid p). }
  unfold post_farmer. rewrite Hname, Htype, Hproject. simpl. run.
  rewrite Hu. simpl. unfold is_admin. rewrite Hrole. simpl.
  rewrite (authorizePermission_not_linked "CREATE_FARMER_RECORDS" req u usr name
             (start d) Hu Husr Hrname Hno).
  simpl. unfold insert_farmer. run.
  destruct (farmer_in _) as [e|stored]; simpl.
  - unfold farmer_catch. simpl. destruct (includes _ _); reflexivity.
  - destruct (bool_decide _); simpl; [reflexivity|].
    destruct (farmer_row_ok _ _); reflexivity.
Qed.

Lemma admin_create_needs_create_code_witness :
  res (post_farmer "f-3"
         (attach (Seed.claims_of "u-admin" "ada@fors.org" "Admin")
            (Seed.request "t-admin" () (Seed.farmer_body (Some "Mara") (Some 1) (Some 1))))
         (start Seed.store)).2
  = Some {| status := 403; json := denial "CREATE_FARMER_RECORDS" |}.
Proof.
  apply (admin_create_needs_create_code "f-3" _
           (Seed.claims_of "u-admin" "ada@fors.org" "Admin")
           (Seed.account "Ada" "ada@fors.org" 1 true) "Admin");
    try reflexivity.
  assert (map_Forall (λ _ p, permission_code p ≠ "CREATE_FARMER_RECORDS")
            (permissions Seed.store)) as Hall.
  { apply (bool_decide_unpack _). vm_compute. exact I. }
  intros pid p Hp. exact (Hall pid p Hp).
Defined.

(** X11. PUT /api/farmers/:id never answers 400: [project_id] is always a
    key of the update, so the test for an update without fields never
    holds. *)
Theorem update_never_answers_400 (req : Request string FarmerBody.t) (d : DB) :
  (status <$> res (put_farmer req (start d)).2) ≠ Some 400.
Proof.
  unfold put_farmer. run. unfold select_farmer.
  destruct (farmers d !! params req) as [old|] eqn:Hf; simpl; [|discriminate].
  destruct (user req) as [u|] eqn:Hu; simpl; [|discriminate].
  rewrite update_keys_nonempty. unfold update_farmer. run.
  destruct (negb (is_admin u));
    [destruct (select_project_user d _ _) as [[?|] [?|]]; simpl; try discriminate|];
    (destruct (authorizePermission_cases "EDIT_FARMER_RECORDS" req u (λ w, (Ret (), w))
                 (start d) Hu) as [->|[->| ->]]; simpl;
     (destruct (farmer_values (body req)) as [e|values]; simpl;
      [unfold farmer_catch; simpl; destruct (includes _ _)
      |rewrite ?Hf; destruct (farmer_row_ok _ _)]);
     simpl; discriminate).
Qed.

Lemma with_farmers_same (d : DB) (id : string) (row : FarmerRow) :
  farmers d !! id = Some row → with_farmers (insert id row) d = d.
Proof. intros Hrow. destruct d. unfold with_farmers. simpl in *. by rewrite insert_id. Qed.

Lemma apply_update_no_fields (old : FarmerRow) :
  apply_update no_fields (project_id old) old = old.
Proof. by destruct old. Qed.

(** X12. An update that carries no field, in scope and permitted, succeeds
    and changes nothing: for a payload with a role name other than Admin, a
    record of a project the subject is assigned to and a role linked to
    EDIT_FARMER_RECORDS, the answer is 200 with the row as it was and the
    store is the same. *)
Theorem update_without_fields_changes_nothing (req : Request string FarmerBody.t)
    (u : Claims) (usr : UserRow) (name : string) (old : FarmerRow) (p : Z) (d : DB) :
  user req = Some u →
  roleName u ≠ "Admin" →
  body req = no_fields →
  farmers d !! params req = Some old →
  project_id old = Some p →
  assigned d (userId u) p →
  users d !! userId u = Some usr →
  roles d !! role_id usr = Some name →
  linked d (role_id usr) "EDIT_FARMER_RECORDS" →
  farmer_row_ok d old = true →
  put_farmer req (start d)
  = (Ret (),
     answered 200 (FarmerResult "Farmer record updated successfully." (params req, old))
       (start d)).
Proof.
  intros Hu Hrole Hbody Hf Hp Hin Husr Hrname Hl Hok.
  unfold put_farmer. run. unfold select_farmer. rewrite Hf. simpl.
  rewrite Hu. simpl. rewrite (not_admin _ Hrole). simpl.
  rewrite Hbody. unfold target_project. simpl.
  rewrite Hp, (select_project_user_assigned _ _ _ Hin). simpl.
  rewrite (authorizePermission_linked "EDIT_FARMER_RECORDS" req u usr name
             (start d) Hu Husr Hrname Hl).
  unfold update_farmer. run.
  change (farmer_values no_fields) with (inr (A := JsError) no_fields).
  rewrite Hf. rewrite <- Hp.
  rewrite apply_update_no_fields, Hok. simpl.
  by rewrite (with_farmers_same _ _ _ Hf).
Qed.

Lemma update_without_fields_changes_nothing_witness :
  let req := attach (Seed.claims_of "u-field" "femi@fors.org" "User")
               (Seed.request "t-field" "f-1" no_fields) in
  put_farmer req (start Seed.store)
  = (Ret (),
     answered 200
       (FarmerResult "Farmer record updated successfully." ("f-1", Seed.farmer "Kofi" 1 "u-admin"))
       (start Seed.store)).
Proof.
  intros req.
  apply (update_without_fields_changes_nothing req
           (Seed.claims_of "u-field" "femi@fors.org" "User")
           (Seed.account "Femi" "femi@fors.org" 2 true) "User"
           (Seed.farmer "Kofi" 1 "u-admin") 1 Seed.store);
    try reflexivity; try discriminate.
  exists 20, {| permission_name := "Edit Farmer Records";
                permission_code := "EDIT_FARMER_RECORDS" |}.
  repeat split.
Defined.

(** X13. DELETE /api/farmers/:id behind the gate, for a payload with a role
    name other than Admin: an id that is not in the store is answered 404; a
    record whose project the subject is not assigned to (or that has none) is
    answered 403; in both cases the store is untouched. For a record in scope
    and a role linked to DELETE_FARMER_RECORDS the answer is 200, the record
    is gone and every other farmer is as before. *)
Theorem farmer_delete_outcomes {B} (req : Request string B) (u : Claims) (d : DB) :
  user req = Some u →
  roleName u ≠ "Admin" →
  let id := params req in
  (farmers d !! id = None →
   delete_farmer_route req (start d)
   = (Ret (), answered 404 (Message "Farmer not found.") (start d)))
  ∧ (∀ row, farmers d !! id = Some row →
       (∀ p, project_id row = Some p → ¬ assigned d (userId u) p) →
       delete_farmer_route req (start d)
       = (Ret (),
          answered 403
            (Message "You can only delete farmers from projects you are assigned to.")
            (start d)))
  ∧ (∀ row p usr name,
       farmers d !! id = Some row →
       project_id row = Some p →
       assigned d (userId u) p →
       users d !! userId u = Some usr →
       roles d !! role_id usr = Some name →
       linked d (role_id usr) "DELETE_FARMER_RECORDS" →
       ∃ d', delete_farmer_route req (start d)
             = (Ret (), answered 200 (Message "Farmer record deleted successfully.")
                          (start d'))
             ∧ farmers d' !! id = None
             ∧ ∀ id', id' ≠ id → farmers d' !! id' = farmers d !! id').
Proof.
  intros Hu Hrole id. subst id. repeat split.
  - intros Hnone. unfold delete_farmer_route. run. unfold select_farmer.
    by rewrite Hnone.
  - intros row Hrow Hout. unfold delete_farmer_route. run. unfold select_farmer.
    rewrite Hrow. simpl. rewrite Hu. simpl. rewrite (not_admin _ Hrole). simpl.
    destruct (project_id row) as [p|]; [|done].
    by rewrite (select_project_user_unassigned _ _ _ (Hout p eq_refl)).
  - intros row p usr name Hrow Hp Hin Husr Hrname Hl.
    exists (with_farmers (delete (params req)) d). split; [|split].
    + unfold delete_farmer_route. run. unfold select_farmer.
      rewrite Hrow. simpl. rewrite Hu. simpl. rewrite (not_admin _ Hrole). simpl.
      rewrite Hp, (select_project_user_assigned _ _ _ Hin). simpl.
      by rewrite (authorizePermission_linked "DELETE_FARMER_RECORDS" req u usr name
                    (start d) Hu Husr Hrname Hl).
    + simpl. apply lookup_delete_eq.
    + intros id' Hne. simpl. by rewrite lookup_delete_ne.
Qed.

Lemma farmer_delete_outcomes_witness :
  let req := attach (Seed.claims_of "u-field" "femi@fors.org" "User")
               (Seed.request "t-field" "f-2" ()) in
  let d := Seed.store in
  (farmers d !! "f-2" = None →
   delete_farmer_route req (start d)
   = (Ret (), answered 404 (Message "Farmer not found.") (start d)))
  ∧ (∀ row, farmers d !! "f-2" = Some row →
       (∀ p, project_id row = Some p → ¬ assigned d "u-field" p) →
       delete_farmer_route req (start d)
       = (Ret (),
          answered 403
            (Message "You can only delete farmers from projects you are assigned to.")
            (start d)))
  ∧ (∀ row p usr name,
       farmers d !! "f-2" = Some row →
       project_id row = Some p →
       assigned d "u-field" p →
       users d !! "u-field" = Some usr →
       roles d !! role_id usr = Some name →
       linked d (role_id usr) "DELETE_FARMER_RECORDS" →
       ∃ d', delete_farmer_route req (start d)
             = (Ret (), answered 200 (Message "Farmer record deleted successfully.")
                          (start d'))
             ∧ farmers d' !! "f-2" = None
             ∧ ∀ id', id' ≠ "f-2" → farmers d' !! id' = farmers d !! id').
Proof.
  intros req d.
  apply (farmer_delete_outcomes req (Seed.claims_of "u-field" "femi@fors.org" "User") d);
    [reflexivity | discriminate].
Defined.

(** ** Login and verification *)

Lemma select_user_by_email_unknown d e :
  (∀ id u, users d !! id = Some u → email u ≠ e) → select_user_by_email d e = single [].
Proof.
  intros Hnone. unfold select_user_by_email.
  assert (filter (λ kv : string * UserRow, email kv.2 = e) (users d) = ∅) as ->.
  { apply map_eq. intros i. rewrite lookup_empty. apply map_lookup_filter_None_2.
    destruct (users d !! i) as [u|] eqn:Hi; [right|by left].
    intros u' [= <-] He. simpl in He. by apply (Hnone i u). }
  by rewrite map_to_list_empty.
Qed.

Lemma registered_other v d id u id' u' :
  registered d id u → registered d id' u' → id ≠ id' →
  registered (pending v id d) id' u'.
Proof.
  intros [Hu Huniq] [Hu' Huniq'] Hne. split.
  - unfold pending. simpl. by rewrite lookup_alter_ne.
  - intros j uj. unfold pending. simpl.
    destruct (decide (id = j)) as [<-|Hj].
    + rewrite lookup_alter_eq, Hu. simpl. intros [= <-] He. simpl in He.
      by apply (Huniq' id u).
    + rewrite lookup_alter_ne by done. apply Huniq'.
Qed.

Section Login.
Context `{Jwt} `{Bcrypt}.

(** X14. A login with an unknown e-mail address and a login with a wrong
    password are answered alike, 400 "Invalid credentials.", and neither
    stores a code nor sends a mail. *)
Theorem login_refusals_look_alike (d : DB) (mail password : string) (draw : N) :
  mail ≠ EmptyString →
  password ≠ EmptyString →
  ((∀ id u, users d !! id = Some u → email u ≠ mail)
   ∨ ∃ id u, registered d id u ∧ email u = mail
             ∧ bcrypt_compare password (password_hash u) = false) →
  login draw (login_request mail password) (start d)
  = (Ret (), answered 400 (Message "Invalid credentials.") (start d)).
Proof.
  intros He%String.eqb_neq Hp%String.eqb_neq Hcase.
  unfold login. simpl. rewrite He, Hp. simpl. run.
  destruct Hcase as [Hnone|(id & u & Hreg & <- & Hwrong)].
  - by rewrite (select_user_by_email_unknown _ _ Hnone).
  - rewrite (select_user_by_email_registered _ _ _ Hreg). simpl. by rewrite Hwrong.
Qed.

(** X15. A login with the right password on an account that is not
    activated or not active is answered 403; no code is stored and no mail is
    sent. *)
Theorem login_of_inactive_account_is_refused (d : DB) (id : string) (u : UserRow)
    (password : string) (draw : N) :
  registered d id u →
  email u ≠ EmptyString →
  password ≠ EmptyString →
  bcrypt_compare password (password_hash u) = true →
  activation_status u = false ∨ is_active u = false →
  login draw (login_request (email u) password) (start d)
  = (Ret (),
     answered 403 (Message "Your account is inactive. Please contact an administrator.")
       (start d)).
Proof.
  intros Hreg He%String.eqb_neq Hp%String.eqb_neq Hmatch Hoff.
  unfold login. simpl. rewrite He, Hp. simpl. run.
  rewrite (select_user_by_email_registered _ _ _ Hreg). simpl. rewrite Hmatch. simpl.
  destruct Hoff as [-> | ->]; [done|]. by destruct (activation_status u).
Qed.

(** X16. The pending codes of two users do not disturb each other: after
    the first user logs in and then the second, the code of the first still
    verifies, with a payload for the first user, and the code of the second is
    still pending afterwards. *)
Theorem codes_of_two_users_are_independent (d : DB) (id1 id2 : string)
    (u1 u2 : UserRow) (name1 pw1 pw2 : string) (draw1 draw2 : N) :
  registered d id1 u1 →
  registered d id2 u2 →
  id1 ≠ id2 →
  roles d !! role_id u1 = Some name1 →
  email u1 ≠ EmptyString → pw1 ≠ EmptyString →
  email u2 ≠ EmptyString → pw2 ≠ EmptyString →
  bcrypt_compare pw1 (password_hash u1) = true →
  bcrypt_compare pw2 (password_hash u2) = true →
  activation_status u1 = true → is_active u1 = true →
  activation_status u2 = true → is_active u2 = true →
  let payload := {| userId := id1; claim_email := email u1; roleName := name1 |} in
  let w1 := (login draw1 (login_request (email u1) pw1) (start d)).2 in
  let w2 := (login draw2 (login_request (email u2) pw2) (start (db w1))).2 in
  let w3 := (verify_otp (verify_request (email u1) (generateOTP draw1)) (start (db w2))).2 in
  res w3 = Some {| status := 200;
                   json := TokenResult "OTP verified successfully." (jwt_sign payload)
                             payload (user_full_name u1) |}
  ∧ (otp <$> users (db w3) !! id1) = Some None
  ∧ (otp <$> users (db w3) !! id2) = Some (Some (generateOTP draw2)).
Proof.
  intros Hr1 Hr2 Hne Hrole He1 Hp1 He2 Hp2 Hm1 Hm2 Ha1 Ho1 Ha2 Ho2 payload w1 w2 w3.
  pose proof (login_issues d id1 u1 pw1 draw1 Hr1 He1 Hp1 Hm1 Ha1 Ho1) as E1.
  assert (db w1 = pending (Some (generateOTP draw1)) id1 d) as D1.
  { subst w1. by rewrite E1. }
  pose proof (registered_pending (Some (generateOTP draw1)) _ _ _ Hr1) as Hr1'.
  pose proof (registered_other (Some (generateOTP draw1)) _ _ _ _ _ Hr1 Hr2 Hne) as Hr2'.
  pose proof (login_issues _ id2 u2 pw2 draw2 Hr2' He2 Hp2 Hm2 Ha2 Ho2) as E2.
  assert (db w2 = pending (Some (generateOTP draw2)) id2
                    (pending (Some (generateOTP draw1)) id1 d)) as D2.
  { subst w2. rewrite D1. by rewrite E2. }
  pose proof (registered_other (Some (generateOTP draw2)) _ _ _ _ _ Hr2' Hr1'
                (not_eq_sym Hne)) as Hr1''.
  pose proof (registered_pending (Some (generateOTP draw2)) _ _ _ Hr2') as Hr2''.
  pose proof (verify_otp_match _ id1 (set_otp (Some (generateOTP draw1)) u1) name1
                (generateOTP draw1) Hr1'' Hrole He1 (generateOTP_nonempty draw1) eq_refl)
    as E3.
  simpl in E3.
  assert (w3 = {| db := pending None id1 (db w2);
                  res := Some {| status := 200;
                                 json := TokenResult "OTP verified successfully."
                                           (jwt_sign payload) payload (user_full_name u1) |};
                  log := [Stored id1 None; Signed payload] |}) as ->.
  { subst w3. rewrite D2. by rewrite E3. }
  cbn [res db]. rewrite D2. split; [done|]. split.
  - pose proof (registered_pending None _ _ _ Hr1'') as [-> _]. reflexivity.
  - pose proof (registered_other None _ _ _ _ _ Hr1'' Hr2'' Hne) as [-> _]. reflexivity.
Qed.

(** X17. For the user of an e-mail address, with a role row, a
    verification answers 200 if and only if the submitted code is the pending
    code of the user; with any other code, or with no pending code, the answer
    is 400 "Invalid OTP." and the store is untouched. *)
Theorem verification_succeeds_iff_code_is_pending (d : DB) (id : string) (u : UserRow)
    (name code : string) :
  registered d id u →
  roles d !! role_id u = Some name →
  email u ≠ EmptyString →
  code ≠ EmptyString →
  let out := verify_otp (verify_request (email u) code) (start d) in
  ((status <$> res out.2) = Some 200 ↔ otp u = Some code)
  ∧ (otp u ≠ Some code →
     out = (Ret (), answered 400 (Message "Invalid OTP.") (start d))).
Proof.
  intros Hreg Hrole He Hc out. split; [split|].
  - intros Hok. destruct (decide (otp u = Some code)) as [|Hne]; [done|].
    subst out. rewrite (verify_otp_mismatch d id u code) in Hok by done.
    discriminate.
  - intros Hotp. subst out.
    by rewrite (verify_otp_match d id u name code Hreg Hrole He Hc Hotp).
  - intros Hne. by apply (verify_otp_mismatch d id u code).
Qed.
End Login.

Ltac seed_registered :=
  split; [reflexivity|];
  let Hrow := fresh "Hrow" in
  intros ? ? Hrow ?; unfold Seed.store in Hrow; simpl in Hrow;
  repeat (apply lookup_insert_Some in Hrow as [[<- <-]|[_ Hrow]]; [done || discriminate|]);
  apply lookup_singleton_Some in Hrow as [<- <-]; done || discriminate.

Lemma login_refusals_look_alike_witness :
  login (H := Seed.bcrypt) 23456 (login_request "femi@fors.org" "guess") (start Seed.store)
  = (Ret (), answered 400 (Message "Invalid credentials.") (start Seed.store)).
Proof.
  apply (login_refusals_look_alike (H0 := Seed.bcrypt) Seed.store "femi@fors.org" "guess");
    try discriminate.
  right. exists "u-field", (Seed.account "Femi" "femi@fors.org" 2 true).
  split; [seed_registered|]. split; reflexivity.
Defined.

Lemma login_of_inactive_account_is_refused_witness :
  login (H := Seed.bcrypt) 23456 (login_request "omar@fors.org" "Omar") (start Seed.store)
  = (Ret (),
     answered 403 (Message "Your account is inactive. Please contact an administrator.")
       (start Seed.store)).
Proof.
  apply (login_of_inactive_account_is_refused (H0 := Seed.bcrypt) Seed.store "u-off"
           (Seed.account "Omar" "omar@fors.org" 2 false) "Omar");
    try discriminate; try reflexivity.
  - seed_registered.
  - by right.
Defined.

Lemma codes_of_two_users_are_independent_witness :
  let d := Seed.store in
  let u1 := Seed.account "Femi" "femi@fors.org" 2 true in
  let u2 := Seed.account "Vera" "vera@fors.org" 3 true in
  let payload := {| userId := "u-field"; claim_email := email u1; roleName := "User" |} in
  let w1 := (login (H := Seed.bcrypt) 23456 (login_request (email u1) "Femi") (start d)).2 in
  let w2 := (login (H := Seed.bcrypt) 777 (login_request (email u2) "Vera")
               (start (db w1))).2 in
  let w3 := (verify_otp (H := Seed.jwt) (verify_request (email u1) (generateOTP 23456))
               (start (db w2))).2 in
  res w3 = Some {| status := 200;
                   json := TokenResult "OTP verified successfully."
                             (jwt_sign (Jwt := Seed.jwt) payload)
                             payload (user_full_name u1) |}
  ∧ (otp <$> users (db w3) !! "u-field") = Some None
  ∧ (otp <$> users (db w3) !! "u-view") = Some (Some (generateOTP 777)).
Proof.
  intros d u1 u2.
  apply (codes_of_two_users_are_independent (H := Seed.jwt) (H0 := Seed.bcrypt)
           d "u-field" "u-view" u1 u2 "User" "Femi" "Vera" 23456 777);
    try reflexivity; try discriminate; seed_registered.
Defined.

Lemma verification_succeeds_iff_code_is_pending_witness :
  let u := Seed.account "Femi" "femi@fors.org" 2 true in
  let out := verify_otp (H := Seed.jwt) (verify_request (email u) "123456")
               (start Seed.store) in
  ((status <$> res out.2) = Some 200 ↔ otp u = Some "123456")
  ∧ (otp u ≠ Some "123456" →
     out = (Ret (), answered 400 (Message "Invalid OTP.") (start Seed.store))).
Proof.
  intros u.
  apply (verification_succeeds_iff_code_is_pending (H := Seed.jwt) Seed.store "u-field" u
           "User" "123456");
    try reflexivity; try discriminate; seed_registered.
Defined.

(** ** Roles, permissions, projects, users and farmer types *)

Lemma inhabited_length {A} (l : list A) (x : A) : x ∈ l → (0 <? length l)%nat = true.
Proof. intros Hin. destruct l; [by apply elem_of_nil in Hin|done]. Qed.

Lemma filter_nothing `{Countable K} {A} (P : K * A → Prop) `{∀ x, Decision (P x)}
    (m : gmap K A) :
  (∀ i x, m !! i = Some x → ¬ P (i, x)) → filter P m = ∅.
Proof.
  intros Hnone. apply map_eq. intros i. rewrite lookup_empty.
  apply map_lookup_filter_None_2.
  destruct (m !! i) as [x|] eqn:Hi; [right|by left].
  intros x' [= <-]. by apply Hnone.
Qed.






Example role_create_example :
  let req := attach (Seed.claims_of "u-admin" "ada@fors.org" "Admin")
               (Seed.request "t-admin" ()
                  {| RoleBody.roleName := Some "Auditor";
                     RoleBody.permissionIds := Some [6; 10] |}) in
  let out := post_role 4 req (start Seed.store) in
  (status <$> res out.2) = Some 201
  ∧ filter (λ rp : Z * Z, rp.1 = 4) (role_permissions (db out.2)) = {[ (4, 6); (4, 10) ]}.
Proof. vm_compute. done. Qed.



Lemma select_users_with_role_in d id uid :
  uid ∈ select_users_with_role d id ↔ ∃ u, users d !! uid = Some u ∧ role_id u = id.
Proof.
  unfold select_users_with_role. rewrite list_elem_of_fmap. split.
  - intros ([k u] & -> & Hin). apply elem_of_map_to_list, map_lookup_filter_Some in Hin.
    by exists u.
  - intros (u & Hu & Hr). exists (uid, u). split; [done|].
    by apply elem_of_map_to_list, map_lookup_filter_Some.
Qed.

Lemma select_users_with_role_none d id :
  (∀ uid u, users d !! uid = Some u → role_id u ≠ id) → select_users_with_role d id = [].
Proof.
  intros Hnone. unfold select_users_with_role.
  rewrite (filter_nothing _ (users d)); [by rewrite map_to_list_empty|].
  intros uid u Hu Hr. by apply (Hnone uid u).
Qed.

(** X20. DELETE /api/roles/:id behind its middlewares: while a user holds
    the role the answer is 400 and the store is untouched; when no user holds
    it the answer is 200 (also for an id that is no role), the role row and
    every link of the role are gone, and the links of the other roles and the
    users are as before. *)
Theorem role_delete_outcomes {B} (req : Request Z B) (d : DB) :
  let id := params req in
  ((∃ uid u, users d !! uid = Some u ∧ role_id u = id) →
   delete_role_route req (start d)
   = (Ret (),
      answered 400 (Message "Cannot delete role: Users are currently assigned to this role.")
        (start d)))
  ∧ ((∀ uid u, users d !! uid = Some u → role_id u ≠ id) →
     ∃ d', delete_role_route req (start d)
           = (Ret (), answered 200 (Message "Role deleted successfully.") (start d'))
           ∧ roles d' = delete id (roles d)
           ∧ (∀ rid pid, (rid, pid) ∈ role_permissions d'
                         ↔ rid ≠ id ∧ (rid, pid) ∈ role_permissions d)
           ∧ users d' = users d).
Proof.
  intros id. subst id. split.
  - intros (uid & u & Hu & Hr). unfold delete_role_route. run.
    rewrite (inhabited_length _ uid); [done|].
    apply select_users_with_role_in. by exists u.
  - intros Hnone. unfold delete_role_route, delete_role_permissions, delete_role. run.
    rewrite select_users_with_role_none by exact Hnone. simpl.
    rewrite select_users_with_role_none by exact Hnone. simpl.
    eexists. split; [reflexivity|]. split; [done|]. split; [|done].
    intros rid pid. simpl. rewrite !elem_of_filter. simpl. tauto.
Qed.

Lemma role_delete_outcomes_witness :
  let req := attach (Seed.claims_of "u-admin" "ada@fors.org" "Admin")
               (Seed.request "t-admin" 3 ()) in
  let d := Seed.store in
  ((∃ uid u, users d !! uid = Some u ∧ role_id u = 3) →
   delete_role_route req (start d)
   = (Ret (),
      answered 400 (Message "Cannot delete role: Users are currently assigned to this role.")
        (start d)))
  ∧ ((∀ uid u, users d !! uid = Some u → role_id u ≠ 3) →
     ∃ d', delete_role_route req (start d)
           = (Ret (), answered 200 (Message "Role deleted successfully.") (start d'))
           ∧ roles d' = delete 3 (roles d)
           ∧ (∀ rid pid, (rid, pid) ∈ role_permissions d'
                         ↔ rid ≠ 3 ∧ (rid, pid) ∈ role_permissions d)
           ∧ users d' = users d).
Proof. intros req d. apply (role_delete_outcomes req d). Defined.

(** X21. DELETE /api/permissions/:id behind its middlewares: a permission
    that a link row refers to is answered 400 and the store is untouched;
    otherwise the answer is 200, the permission row is gone, and the links are
    as before, each still with its permission row. *)
Theorem permission_delete_outcomes {B} (req : Request Z B) (d : DB) :
  let id := params req in
  ((∃ rid, (rid, id) ∈ role_permissions d) →
   delete_permission_route req (start d)
   = (Ret (),
      answered 400
        (Message "Cannot delete permission: It is currently assigned to one or more roles.")
        (start d)))
  ∧ ((∀ rid, (rid, id) ∉ role_permissions d) →
     ∃ d', delete_permission_route req (start d)
           = (Ret (), answered 200 (Message "Permission deleted successfully.") (start d'))
           ∧ permissions d' = delete id (permissions d)
           ∧ role_permissions d' = role_permissions d
           ∧ ∀ rid pid, (rid, pid) ∈ role_permissions d' →
                        permissions d' !! pid = permissions d !! pid).
Proof.
  intros id. subst id. split.
  - intros (rid & Hin). unfold delete_permission_route. run.
    rewrite (inhabited_length _ (params req)); [done|].
    unfold select_links_of_permission. apply list_elem_of_fmap.
    exists (rid, params req). split; [done|]. by apply elem_of_elements, elem_of_filter.
  - intros Hnone.
    assert (filter (λ rp : Z * Z, rp.2 = params req) (role_permissions d) = ∅) as Hempty.
    { apply set_eq. intros [rid pid]. rewrite elem_of_filter. simpl. split.
      - intros [-> Hin]. by destruct (Hnone rid).
      - by intros ?%not_elem_of_empty. }
    assert (filter (λ rp : Z * Z, rp.2 ≠ params req) (role_permissions d)
            = role_permissions d) as Hsame.
    { apply set_eq. intros [rid pid]. rewrite elem_of_filter. simpl. split.
      - by intros [_ ?].
      - intros Hin. split; [|done]. intros ->. by destruct (Hnone rid). }
    unfold delete_permission_route, delete_permission, select_links_of_permission. run.
    rewrite Hempty, elements_empty. simpl.
    eexists. split; [reflexivity|]. simpl. split; [done|]. split; [done|].
    intros rid pid Hin. rewrite Hsame in Hin. apply lookup_delete_ne.
    intros <-. by destruct (Hnone rid).
Qed.

Lemma permission_delete_outcomes_witness :
  let req := attach (Seed.claims_of "u-admin" "ada@fors.org" "Admin")
               (Seed.request "t-admin" 18 ()) in
  let d := Seed.store in
  ((∃ rid, (rid, 18) ∈ role_permissions d) →
   delete_permission_route req (start d)
   = (Ret (),
      answered 400
        (Message "Cannot delete permission: It is currently assigned to one or more roles.")
        (start d)))
  ∧ ((∀ rid, (rid, 18) ∉ role_permissions d) →
     ∃ d', delete_permission_route req (start d)
           = (Ret (), answered 200 (Message "Permission deleted successfully.") (start d'))
           ∧ permissions d' = delete 18 (permissions d)
           ∧ role_permissions d' = role_permissions d
           ∧ ∀ rid pid, (rid, pid) ∈ role_permissions d' →
                        permissions d' !! pid = permissions d !! pid).
Proof. intros req d. apply (permission_delete_outcomes req d). Defined.

(** X22. DELETE /api/projects/:id behind its middlewares makes no check of
    its own: the answer is 200 (also for an id that is no project), the
    project row, every assignment to the project and every farmer of the
    project are gone, and the other assignments and farmers are as before. *)
Theorem project_delete_removes_its_farmers {B} (req : Request Z B) (d : DB) :
  let id := params req in
  ∃ d', delete_project_route req (start d)
        = (Ret (), answered 200 (Message "Project deleted successfully.") (start d'))
        ∧ projects d' = delete id (projects d)
        ∧ (∀ p uid, (p, uid) ∈ project_users d' ↔ p ≠ id ∧ (p, uid) ∈ project_users d)
        ∧ (∀ fid row, farmers d' !! fid = Some row
                      ↔ farmers d !! fid = Some row ∧ project_id row ≠ Some id).
Proof.
  intros id. subst id.
  unfold delete_project_route, delete_project_users, delete_farmers_of_project,
    delete_project.
  run.
  rewrite bool_decide_eq_false_2; last first.
  { intros (fid & row & Hrow & Hp)%map_Exists_lookup.
    apply map_lookup_filter_Some in Hrow as [_ Hne]. by apply Hne. }
  simpl. eexists. split; [reflexivity|]. simpl. split; [done|]. split.
  - intros p uid. rewrite !elem_of_filter. simpl. tauto.
  - intros fid row. by rewrite map_lookup_filter_Some.
Qed.

Example project_delete_example :
  let out := delete_project_route
               (attach (Seed.claims_of "u-admin" "ada@fors.org" "Admin")
                  (Seed.request "t-admin" 1 ()))
               (start Seed.store) in
  (status <$> res out.2) = Some 200
  ∧ farmers (db out.2) !! "f-1" = None
  ∧ (full_name <$> farmers (db out.2) !! "f-2") = Some "Lan"
  ∧ project_users (db out.2) = ∅.
Proof. vm_compute. done. Qed.

(** X23. DELETE /api/users/:id behind its middlewares: a user who added a
    farmer cannot be deleted, the answer is 500 and the store is untouched;
    otherwise the answer is 200 (also for an id that is no user), the user row
    and the assignments of the user are gone, and a token of that user, still
    verified by the codec, is answered 403 by the gate from then on. *)
Theorem user_delete_outcomes `{Jwt} {B} (req : Request string B) (d : DB) :
  let id := params req in
  ((∃ fid row, farmers d !! fid = Some row ∧ added_by_user_id row = Some id) →
   delete_user_route req (start d)
   = (Ret (),
      answered 500
        (ServerError "Server error."
           "update or delete on table violates foreign key constraint")
        (start d)))
  ∧ ((∀ fid row, farmers d !! fid = Some row → added_by_user_id row ≠ Some id) →
     ∃ d', delete_user_route req (start d)
           = (Ret (), answered 200 (Message "User deleted successfully.") (start d'))
           ∧ users d' = delete id (users d)
           ∧ (∀ p uid, (p, uid) ∈ project_users d' ↔ uid ≠ id ∧ (p, uid) ∈ project_users d)
           ∧ ∀ P' B' (r : Request P' B') token payload next,
               bearer (authorization r) = Some token →
               token ≠ EmptyString →
               jwt_verify token = Some payload →
               userId payload = id →
               authenticateToken r next (start d')
               = (Ret (), answered 403 (Message "User is inactive or not found.")
                            (start d'))).
Proof.
  intros id. subst id. split.
  - intros (fid & row & Hrow & Hby). unfold delete_user_route, delete_user. run.
    rewrite bool_decide_eq_true_2; [done|].
    apply map_Exists_lookup. by exists fid, row.
  - intros Hnone. unfold delete_user_route, delete_user. run.
    rewrite bool_decide_eq_false_2; last first.
    { intros (fid & row & Hrow & Hby)%map_Exists_lookup. by apply (Hnone fid row). }
    simpl. eexists. split; [reflexivity|]. simpl. split; [done|]. split.
    + intros p uid. rewrite elem_of_filter. simpl. tauto.
    + intros P' B' r token payload next Hb Hne Hv Hid.
      rewrite (gate_verifies r token) by done. rewrite Hv.
      unfold select_user_status. simpl. rewrite Hid, lookup_delete_eq. reflexivity.
Qed.

Lemma user_delete_outcomes_witness :
  let req := attach (Seed.claims_of "u-admin" "ada@fors.org" "Admin")
               (Seed.request "t-admin" "u-field" ()) in
  let d := Seed.store in
  ((∃ fid row, farmers d !! fid = Some row ∧ added_by_user_id row = Some "u-field") →
   delete_user_route req (start d)
   = (Ret (),
      answered 500
        (ServerError "Server error."
           "update or delete on table violates foreign key constraint")
        (start d)))
  ∧ ((∀ fid row, farmers d !! fid = Some row → added_by_user_id row ≠ Some "u-field") →
     ∃ d', delete_user_route req (start d)
           = (Ret (), answered 200 (Message "User deleted successfully.") (start d'))
           ∧ users d' = delete "u-field" (users d)
           ∧ (∀ p uid, (p, uid) ∈ project_users d'
                       ↔ uid ≠ "u-field" ∧ (p, uid) ∈ project_users d)
           ∧ ∀ P' B' (r : Request P' B') token payload next,
               bearer (authorization r) = Some token →
               token ≠ EmptyString →
               jwt_verify (Jwt := Seed.jwt) token = Some payload →
               userId payload = "u-field" →
               authenticateToken (H := Seed.jwt) r next (start d')
               = (Ret (), answered 403 (Message "User is inactive or not found.")
                            (start d'))).
Proof. intros req d. apply (user_delete_outcomes (H := Seed.jwt) req d). Defined.

Example user_delete_examples :
  let delete id :=
    delete_user_route (attach (Seed.claims_of "u-admin" "ada@fors.org" "Admin")
                         (Seed.request "t-admin" id ()))
      (start Seed.store) in
  (status <$> res (delete "u-admin").2) = Some 500
  ∧ (status <$> res (delete "u-field").2) = Some 200
  ∧ users (db (delete "u-field").2) !! "u-field" = None
  ∧ (status <$> res (GET_farmers (H := Seed.jwt) (Seed.request "t-field" () ())
                       (start (db (delete "u-field").2))).2) = Some 403.
Proof. vm_compute. done. Qed.

(** X24. DELETE /api/farmer-types/:id behind its middlewares: a type that a
    farmer has is answered 400 and the store is untouched; otherwise the
    answer is 200, the type row is gone, and the farmers are as before. *)
Theorem farmer_type_delete_outcomes {B} (req : Request Z B) (d : DB) :
  let id := params req in
  ((∃ fid row, farmers d !! fid = Some row ∧ farmer_type_id row = Some id) →
   delete_farmer_type_route req (start d)
   = (Ret (),
      answered 400
        (Message "Cannot delete farmer type: It is currently linked to existing farmer records.")
        (start d)))
  ∧ ((∀ fid row, farmers d !! fid = Some row → farmer_type_id row ≠ Some id) →
     ∃ d', delete_farmer_type_route req (start d)
           = (Ret (), answered 200 (Message "Farmer type deleted successfully.") (start d'))
           ∧ farmer_types d' = delete id (farmer_types d)
           ∧ farmers d' = farmers d).
Proof.
  intros id. subst id. split.
  - intros (fid & row & Hrow & Ht). unfold delete_farmer_type_route. run.
    rewrite (inhabited_length _ fid); [done|].
    unfold select_farmers_of_type. apply list_elem_of_fmap. exists (fid, row).
    split; [done|]. by apply elem_of_map_to_list, map_lookup_filter_Some.
  - intros Hnone.
    assert (select_farmers_of_type d (params req) = []) as Hempty.
    { unfold select_farmers_of_type.
      rewrite (filter_nothing _ (farmers d)); [by rewrite map_to_list_empty|].
      intros fid row Hrow Ht. by apply (Hnone fid row). }
    unfold delete_farmer_type_route, delete_farmer_type. run.
    rewrite Hempty. simpl. rewrite Hempty. simpl.
    eexists. split; [reflexivity|]. done.
Qed.

Lemma farmer_type_delete_outcomes_witness :
  let req := attach (Seed.claims_of "u-admin" "ada@fors.org" "Admin")
               (Seed.request "t-admin" 1 ()) in
  let d := Seed.store in
  ((∃ fid row, farmers d !! fid = Some row ∧ farmer_type_id row = Some 1) →
   delete_farmer_type_route req (start d)
   = (Ret (),
      answered 400
        (Message "Cannot delete farmer type: It is currently linked to existing farmer records.")
        (start d)))
  ∧ ((∀ fid row, farmers d !! fid = Some row → farmer_type_id row ≠ Some 1) →
     ∃ d', delete_farmer_type_route req (start d)
           = (Ret (), answered 200 (Message "Farmer type deleted successfully.") (start d'))
           ∧ farmer_types d' = delete 1 (farmer_types d)
           ∧ farmers d' = farmers d).
Proof. intros req d. apply (farmer_type_delete_outcomes req d). Defined.

Example role_delete_examples :
  let delete id :=
    delete_role_route (attach (Seed.claims_of "u-admin" "ada@fors.org" "Admin")
                         (Seed.request "t-admin" id ()))
      (start Seed.store) in
  (status <$> res (delete 2).2) = Some 400
  ∧ db (delete 2).2 = Seed.store
  ∧ (status <$> res (delete 7).2) = Some 200
  ∧ db (delete 7).2 = Seed.store.
Proof. vm_compute. done. Qed.

Example permission_and_type_delete_examples :
  let admin {P} (p : P) :=
    attach (Seed.claims_of "u-admin" "ada@fors.org" "Admin") (Seed.request "t-admin" p ()) in
  (status <$> res (delete_permission_route (admin 18) (start Seed.store)).2) = Some 400
  ∧ (status <$> res (delete_permission_route (admin 34)
                       (start Seed.store_with_new_permission)).2) = Some 200
  ∧ db (delete_permission_route (admin 34) (start Seed.store_with_new_permission)).2
    = Seed.store
  ∧ (status <$> res (delete_farmer_type_route (admin 1) (start Seed.store)).2) = Some 400
  ∧ (status <$> res (delete_farmer_type_route (admin 2) (start Seed.store)).2) = Some 200.
Proof. vm_compute. done. Qed.

Lemma select_other_roles_one d name id other :
  roles d !! other = Some name →
  other ≠ id →
  (∀ id', roles d !! id' = Some name → id' = other) →
  select_other_roles d name id = [(other, name)].
Proof.
  intros Hother Hne Huniq. unfold select_other_roles.
  assert (filter (λ kv : Z * string, kv.2 = name ∧ kv.1 ≠ id) (roles d)
          = {[ other := name ]}) as ->.
  { apply map_eq. intros i. apply option_eq. intros n.
    rewrite map_lookup_filter_Some, lookup_singleton_Some. simpl. split.
    - intros [Hi [-> _]]. by rewrite (Huniq i Hi).
    - by intros [<- <-]. }
  apply map_to_list_singleton.
Qed.

(** X25. PUT /api/roles/:id behind its middlewares refuses without writing:
    a name that another role bears is answered 400; an id that is no role is
    answered 500 (the error of [.single()] is thrown, the 404 branch is never
    reached); the store is untouched in both cases, so the links of every role
    are as before. *)
Theorem role_update_refusals (req : Request Z RoleBody.t) (d : DB) (name : string) :
  let id := params req in
  RoleBody.roleName (body req) = Some name →
  name ≠ EmptyString →
  (∀ other, roles d !! other = Some name → other ≠ id →
            (∀ id', roles d !! id' = Some name → id' = other) →
            put_role req (start d)
            = (Ret (), answered 400 (Message "Another role with this name already exists.")
                         (start d)))
  ∧ (roles d !! id = None →
     (∀ id', roles d !! id' ≠ Some name) →
     put_role req (start d)
     = (Ret (),
        answered 500
          (ServerError "Server error." "JSON object requested, multiple (or no) rows returned")
          (start d))).
Proof.
  intros id Hname Hne%String.eqb_neq. subst id. split.
  - intros other Hother Hdiff Huniq.
    unfold put_role. rewrite Hname. simpl. rewrite Hne. simpl. run.
    by rewrite (select_other_roles_one _ _ _ other).
  - intros Hnone Hfree.
    assert (select_other_roles d name (params req) = []) as Hempty.
    { apply select_other_roles_none. intros id' Hid'. by destruct (Hfree id'). }
    unfold put_role. rewrite Hname. simpl. rewrite Hne. simpl. run.
    rewrite Hempty. simpl. unfold update_role. run. by rewrite Hnone.
Qed.

Lemma role_update_refusals_witness :
  let req := attach (Seed.claims_of "u-admin" "ada@fors.org" "Admin")
               (Seed.request "t-admin" 3
                  {| RoleBody.roleName := Some "User"; RoleBody.permissionIds := Some [1] |}) in
  let d := Seed.store in
  (∀ other, roles d !! other = Some "User" → other ≠ 3 →
            (∀ id', roles d !! id' = Some "User" → id' = other) →
            put_role req (start d)
            = (Ret (), answered 400 (Message "Another role with this name already exists.")
                         (start d)))
  ∧ (roles d !! 3 = None →
     (∀ id', roles d !! id' ≠ Some "User") →
     put_role req (start d)
     = (Ret (),
        answered 500
          (ServerError "Server error." "JSON object requested, multiple (or no) rows returned")
          (start d))).
Proof.
  intros req d. apply (role_update_refusals req d "User"); [reflexivity | discriminate].
Defined.

Example role_update_refusal_examples :
  let update id name :=
    put_role (attach (Seed.claims_of "u-admin" "ada@fors.org" "Admin")
                (Seed.request "t-admin" id
                   {| RoleBody.roleName := Some name; RoleBody.permissionIds := Some [1] |}))
      (start Seed.store) in
  (status <$> res (update 3 "User").2) = Some 400
  ∧ db (update 3 "User").2 = Seed.store
  ∧ (status <$> res (update 9 "Auditor").2) = Some 500
  ∧ db (update 9 "Auditor").2 = Seed.store.
Proof. vm_compute. done. Qed.

(** ** Values that do not fit their column *)






















(** The columns at their bounds. *)
Example column_examples :
  let north digits scale := {| Numeric.digits := digits; Numeric.scale := scale |} in
  let on year month day := {| Date.year := year; Date.month := month; Date.day := day |} in
  (int4 2147483647 = inr 2147483647
   ∧ int4 2147483648
     = refused ("value " +:+ quoted "2147483648" +:+ " is out of range for type integer"))
  ∧ (varchar 5 "Oyo   " = inr "Oyo  "
     ∧ varchar 3 "Ibadan" = refused "value too long for type character varying(3)")
  ∧ (date (on 2000 2 29)%N = inr (on 2000 2 29)%N
     ∧ date (on 1900 2 29)%N
       = refused ("date/time field value out of range: " +:+ quoted "1900-02-29")
     ∧ date (on 2024 13 1)%N
       = refused ("date/time field value out of range: " +:+ quoted "2024-13-01"))
  ∧ (decimal 10 (north 6123456789012 12%nat) = inr (north 612345679 8%nat)
     ∧ decimal 10 (north (-15) 9%nat) = inr (north (-2) 8%nat)
     ∧ decimal 10 (north 99999999995 9%nat) = refused "numeric field overflow"
     ∧ decimal 10 (north 1805 1%nat) = refused "numeric field overflow"
     ∧ decimal 11 (north 1805 1%nat) = inr (north 18050000000 8%nat)).
Proof. vm_compute. done. Qed.
